(** * Verification of poetry_migration: migrate_repo.py and migrate_repo_v2.py

    A shallow embedding of the dependency-normalisation, analysis,
    configuration and driver logic of the migration script.  Python
    strings are modelled as [string] over 8-bit characters; every string
    helper below mirrors the Python method of the same name. *)

From Stdlib Require Import Ascii String ZArith List Bool Lia.
From Stdlib Require Import Sorting.Permutation Sorting.Sorted Sorting.Mergesort.
From Stdlib Require Import Numbers.DecimalString.
Import ListNotations.
Open Scope string_scope.

(* ================================================================== *)
(** ** Python string primitives *)
(* ================================================================== *)

Module PyStr.

(** [sub in s] *)
Fixpoint contains (sub s : string) : bool :=
  prefix sub s ||
  match s with
  | EmptyString => false
  | String _ s' => contains sub s'
  end.

(** [s.startswith(pre)] *)
Definition startswith (pre s : string) : bool := prefix pre s.

(** [s.endswith(suf)] *)
Fixpoint endswith (suf s : string) : bool :=
  String.eqb s suf ||
  match s with
  | EmptyString => false
  | String _ s' => endswith suf s'
  end.

(** [s.replace(old, new)] for a non-empty [old] (every call site passes a
    non-empty literal): scan left to right, replacing non-overlapping
    occurrences.  [skip] counts the characters of an occurrence just
    replaced that still have to be consumed. *)
Fixpoint replace_from (old new s : string) (skip : nat) : string :=
  match s with
  | EmptyString => EmptyString
  | String c s' =>
      match skip with
      | S k => replace_from old new s' k
      | O =>
          if prefix old s then new ++ replace_from old new s' (String.length old - 1)
          else String c (replace_from old new s' 0)
      end
  end.

Definition replace (old new s : string) : string := replace_from old new s 0.

(** [s.split(sep)[0]] for a non-empty separator. *)
Fixpoint split_first (sep s : string) : string :=
  match s with
  | EmptyString => EmptyString
  | String c s' => if prefix sep s then EmptyString else String c (split_first sep s')
  end.

(** [s.split(sep, 1)] for a one-character separator: the part before the
    first [sep] and, when there is one, the rest after it. *)
Fixpoint split_once (sep : ascii) (s : string) : string * option string :=
  match s with
  | EmptyString => (EmptyString, None)
  | String c s' =>
      if Ascii.eqb c sep then (EmptyString, Some s')
      else let '(a, r) := split_once sep s' in (String c a, r)
  end.

(** [s[:-2]] *)
Definition drop_last2 (s : string) : string := substring 0 (String.length s - 2) s.

(** Characters that [str.strip()] and [int()] treat as white space
    (the 8-bit part of Python's [str.isspace]). *)
Definition is_space (c : ascii) : bool :=
  let n := nat_of_ascii c in
  ((9 <=? n) && (n <=? 13))%nat || ((28 <=? n) && (n <=? 32))%nat
  || (n =? 133)%nat || (n =? 160)%nat.

Fixpoint lstrip (s : string) : string :=
  match s with
  | EmptyString => EmptyString
  | String c s' => if is_space c then lstrip s' else s
  end.

Fixpoint rstrip (s : string) : string :=
  match s with
  | EmptyString => EmptyString
  | String c s' =>
      let r := rstrip s' in
      if String.eqb r EmptyString && is_space c then EmptyString else String c r
  end.

Definition strip (s : string) : string := rstrip (lstrip s).

Definition digit_value (c : ascii) : option Z :=
  let n := nat_of_ascii c in
  if ((48 <=? n) && (n <=? 57))%nat then Some (Z.of_nat (n - 48)) else None.

(** Digits of an [int()] literal: single underscores are allowed between
    digits; [prev_digit] says whether the previous character was a digit. *)
Fixpoint digits_value (s : string) (acc : Z) (prev_digit : bool) : option Z :=
  match s with
  | EmptyString => if prev_digit then Some acc else None
  | String c s' =>
      match digit_value c with
      | Some d => digits_value s' (acc * 10 + d)%Z true
      | None =>
          if Ascii.eqb c "_"%char && prev_digit then digits_value s' acc false
          else None
      end
  end.

(** [int(s)] on a base-10 string; [None] is the [ValueError]. *)
Definition int_of_string (s : string) : option Z :=
  match strip s with
  | EmptyString => None
  | String c r as t =>
      if Ascii.eqb c "-"%char then option_map Z.opp (digits_value r 0 false)
      else if Ascii.eqb c "+"%char then digits_value r 0 false
      else digits_value t 0 false
  end.

(** [str(n)] / [f"{n}"] for an integer. *)
Definition string_of_Z (z : Z) : string := NilEmpty.string_of_int (Z.to_int z).

(** [sep.join(xs)] *)
Fixpoint join (sep : string) (xs : list string) : string :=
  match xs with
  | [] => EmptyString
  | [x] => x
  | x :: xs' => x ++ sep ++ join sep xs'
  end.

End PyStr.

(* ================================================================== *)
(** ** Version constraints (migrate_repo.py, lines 109-166) *)
(* ================================================================== *)

Module Version.
Import PyStr.

Definition strip_version_markers (version : string) : string :=
  let v := replace "~" ">=" (replace "^" ">=" version) in
  let v := if endswith ".*" v then drop_last2 v else v in
  if contains ".post" v then split_first ".post" v else v.

Definition ensure_patch_version (version : string) : string :=
  if negb (endswith ".0" version) then version ++ ".0" else version.

Definition normalize_version_string (version : string) : string :=
  ensure_patch_version (strip_version_markers version).

(** [None] is the [ValueError] raised by [int()]. *)
Definition add_upper_bound (version : string) : option string :=
  match int_of_string (replace ">=" "" (split_first "." version)) with
  | Some m => Some (version ++ ", <" ++ string_of_Z (m + 1) ++ ".0")
  | None => None
  end.

Definition add_upper_bound_if_needed (normalized : string) : option string :=
  if startswith ">=" normalized then add_upper_bound normalized else Some normalized.

(** The [try ... except (ValueError, IndexError): return None] wrapper. *)
Definition validate_version_constraint (version : string) : option string :=
  add_upper_bound_if_needed (normalize_version_string version).

(** [dep.split(" ", 1)] into name and the (possibly empty) rest. *)
Definition extract_dep_version (dep : string) : string * string :=
  match split_once " "%char dep with
  | (n, Some v) => (n, v)
  | (n, None) => (n, EmptyString)
  end.

(** [bool(version and not validate_version_constraint(version))]; a
    normalised result is never the empty string. *)
Definition is_invalid_version (name version : string) : bool :=
  negb (String.eqb version EmptyString) &&
  match validate_version_constraint version with
  | None => true
  | Some r => String.eqb r EmptyString
  end.

(** Over the already concatenated [get_project_deps(doc) + get_dev_deps(doc)]. *)
Definition validate_version_constraints (all_deps : list string)
  : list (string * string) :=
  filter (fun nv => is_invalid_version (fst nv) (snd nv))
    (map extract_dep_version all_deps).

End Version.

(** [validate_version_constraint] of migrate_repo_v2.py (lines 47-66). *)
Module V2.
Import PyStr.

Definition validate_version_constraint (version0 : string) : option string :=
  let version := replace "~" ">=" (replace "^" ">=" version0) in
  let version := if endswith ".*" version then drop_last2 version else version in
  let version := if contains ".post" version then split_first ".post" version else version in
  let version := if negb (endswith ".0" version) then version ++ ".0" else version in
  if startswith ">=" version then
    match int_of_string (replace ">=" "" (split_first "." version)) with
    | Some m => Some (version ++ ", <" ++ string_of_Z (m + 1) ++ ".0")
    | None => None
    end
  else Some version.

End V2.

Example test_caret : Version.validate_version_constraint "^1.2.3" = Some ">=1.2.3.0, <2.0".
Proof. reflexivity. Qed.
Example test_tilde : Version.validate_version_constraint "~2.0" = Some ">=2.0, <3.0".
Proof. reflexivity. Qed.
Example test_wild : Version.validate_version_constraint ">=3.0.*" = Some ">=3.0, <4.0".
Proof. reflexivity. Qed.
Example test_bad : Version.validate_version_constraint ">=bad" = None.
Proof. reflexivity. Qed.

(* ================================================================== *)
(** ** Facts about the string primitives *)
(* ================================================================== *)

Module StrFacts.
Import PyStr.

Fixpoint has_char (c : ascii) (s : string) : bool :=
  match s with
  | EmptyString => false
  | String d s' => Ascii.eqb c d || has_char c s'
  end.

Lemma has_char_app c a b : has_char c (a ++ b) = has_char c a || has_char c b.
Proof.
  induction a as [|d a IH]; simpl; [reflexivity|].
  rewrite IH, orb_assoc; reflexivity.
Qed.

Lemma prefix_nil s : prefix EmptyString s = true.
Proof. destruct s; reflexivity. Qed.

Lemma prefix_app p a b : prefix p a = true -> prefix p (a ++ b) = true.
Proof.
  revert p; induction a as [|d a IH]; intros p H; destruct p as [|x p]; simpl in *;
    try (destruct b; reflexivity); try discriminate.
  destruct (ascii_dec x d); [apply IH; exact H | discriminate].
Qed.

Lemma prefix_has_char p s c : prefix p s = true -> has_char c p = true -> has_char c s = true.
Proof.
  revert s; induction p as [|x p IH]; intros s Hp Hc; [discriminate|].
  destruct s as [|d s]; simpl in *; [discriminate|].
  destruct (ascii_dec x d) as [->|]; [|discriminate].
  apply orb_true_iff in Hc as [Hc|Hc].
  - rewrite Hc; reflexivity.
  - rewrite (IH s Hp Hc), orb_true_r; reflexivity.
Qed.

Lemma contains_has_char p s c :
  contains p s = true -> has_char c p = true -> has_char c s = true.
Proof.
  induction s as [|d s IH]; intros H Hc.
  - destruct p; simpl in *; discriminate.
  - cbn [contains] in H. apply orb_true_iff in H as [H|H].
    + exact (prefix_has_char _ _ _ H Hc).
    + simpl; rewrite (IH H Hc), orb_true_r; reflexivity.
Qed.

(** A pattern whose last character does not occur in [b] cannot start
    inside [a] and end inside [b]. *)
Lemma prefix_app_last p0 lc a b :
  has_char lc b = false ->
  prefix (p0 ++ String lc EmptyString) (a ++ b) = prefix (p0 ++ String lc EmptyString) a.
Proof.
  intros Hb; revert p0; induction a as [|d a IH]; intros p0; simpl.
  - destruct (prefix (p0 ++ String lc EmptyString) b) eqn:E; [|destruct p0; reflexivity].
    exfalso.
    assert (Hc : has_char lc (p0 ++ String lc EmptyString) = true).
    { rewrite has_char_app; simpl; rewrite Ascii.eqb_refl, orb_true_r; reflexivity. }
    rewrite (prefix_has_char _ _ _ E Hc) in Hb; discriminate.
  - destruct p0 as [|x p0]; simpl.
    + destruct (ascii_dec lc d); rewrite ?prefix_nil; reflexivity.
    + destruct (ascii_dec x d); [apply IH | reflexivity].
Qed.

Lemma contains_app_last p0 lc a b :
  has_char lc b = false ->
  contains (p0 ++ String lc EmptyString) (a ++ b) = contains (p0 ++ String lc EmptyString) a.
Proof.
  intros Hb; induction a as [|d a IH].
  - simpl. destruct (contains (p0 ++ String lc EmptyString) b) eqn:E.
    + exfalso.
      assert (Hc : has_char lc (p0 ++ String lc EmptyString) = true).
      { rewrite has_char_app; simpl; rewrite Ascii.eqb_refl, orb_true_r; reflexivity. }
      rewrite (contains_has_char _ _ _ E Hc) in Hb; discriminate.
    + destruct p0; reflexivity.
  - change (String d a ++ b) with (String d (a ++ b)).
    change (contains (p0 ++ String lc EmptyString) (String d (a ++ b)))
      with (prefix (p0 ++ String lc EmptyString) (String d (a ++ b))
            || contains (p0 ++ String lc EmptyString) (a ++ b)).
    rewrite IH.
    change (String d (a ++ b)) with (String d a ++ b).
    rewrite prefix_app_last by exact Hb.
    reflexivity.
Qed.

Lemma replace_absent old new s : contains old s = false -> replace_from old new s 0 = s.
Proof.
  induction s as [|c s IH]; intros H; simpl in *; [reflexivity|].
  apply orb_false_iff in H as [H1 H2].
  rewrite H1, IH by exact H2; reflexivity.
Qed.

(** Replacing a one-character pattern: characters of the result come
    from the input or from the replacement, and the pattern is gone when
    the replacement does not contain it. *)
Lemma replace_char_has_char a new s c :
  has_char c (replace_from (String a EmptyString) new s 0) = true ->
  (has_char c s = true /\ c <> a) \/ has_char c new = true.
Proof.
  induction s as [|d s IH]; simpl; intros H; [discriminate|].
  destruct (ascii_dec a d) as [<-|Hne].
  - simpl in H. rewrite prefix_nil, has_char_app in H.
    apply orb_true_iff in H as [H|H]; [right; exact H|].
    destruct (IH H) as [[H1 H2]|H1]; [left|right; exact H1].
    split; [rewrite H1, orb_true_r; reflexivity | exact H2].
  - simpl in H. apply orb_true_iff in H as [H|H].
    + apply Ascii.eqb_eq in H; subst d. left.
      split; [rewrite Ascii.eqb_refl; reflexivity | intros ->; exact (Hne eq_refl)].
    + destruct (IH H) as [[H1 H2]|H1]; [left|right; exact H1].
      split; [rewrite H1, orb_true_r; reflexivity | exact H2].
Qed.

Lemma substring0_has_char n s c : has_char c (substring 0 n s) = true -> has_char c s = true.
Proof.
  revert n; induction s as [|d s IH]; intros n H; destruct n; simpl in *; try discriminate.
  apply orb_true_iff in H as [H|H]; [rewrite H; reflexivity|].
  rewrite (IH n H), orb_true_r; reflexivity.
Qed.

Lemma split_first_prefix sep s : exists u, s = split_first sep s ++ u.
Proof.
  induction s as [|c s [u IH]]; cbn [split_first].
  - exists EmptyString; reflexivity.
  - destruct (prefix sep (String c s)).
    + exists (String c s); reflexivity.
    + exists u; cbn [append]; rewrite <- IH; reflexivity.
Qed.

Lemma split_first_has_char sep s c :
  has_char c (split_first sep s) = true -> has_char c s = true.
Proof.
  destruct (split_first_prefix sep s) as [u Hu]; intros H.
  rewrite Hu, has_char_app, H; reflexivity.
Qed.

Lemma contains_nil sep : sep <> EmptyString -> contains sep EmptyString = false.
Proof. destruct sep; [contradiction | reflexivity]. Qed.

(** [s.split(sep)[0]] contains no occurrence of [sep]. *)
Lemma split_first_contains sep s :
  sep <> EmptyString -> contains sep (split_first sep s) = false.
Proof.
  intros Hsep; induction s as [|c s IH]; cbn [split_first].
  - apply contains_nil; exact Hsep.
  - destruct (prefix sep (String c s)) eqn:E.
    + apply contains_nil; exact Hsep.
    + cbn [contains]. rewrite IH, orb_false_r.
      destruct (prefix sep (String c (split_first sep s))) eqn:E2; [|reflexivity].
      destruct (split_first_prefix sep s) as [u Hu].
      assert (H : prefix sep (String c (split_first sep s) ++ u) = true)
        by (apply prefix_app; exact E2).
      cbn [append] in H; rewrite <- Hu in H; rewrite H in E; discriminate.
Qed.

Lemma split_first_app_char c a b :
  has_char c a = true ->
  split_first (String c EmptyString) (a ++ b) = split_first (String c EmptyString) a.
Proof.
  induction a as [|d a IH]; simpl; intros H; [discriminate|].
  destruct (ascii_dec c d) as [->|Hne]; [rewrite !prefix_nil; reflexivity|].
  rewrite IH; [reflexivity|].
  apply orb_true_iff in H as [H|H]; [apply Ascii.eqb_eq in H; contradiction | exact H].
Qed.

Lemma endswith_app suf a : endswith suf (a ++ suf) = true.
Proof.
  induction a as [|d a IH].
  - change (endswith suf suf = true).
    destruct suf; cbn [endswith]; rewrite String.eqb_refl; reflexivity.
  - cbn [append endswith]; rewrite IH, orb_true_r; reflexivity.
Qed.

Lemma endswith_spec suf s : endswith suf s = true -> exists t, s = t ++ suf.
Proof.
  induction s as [|d s IH]; cbn [endswith]; intros H.
  - apply orb_true_iff in H as [H|H]; [|discriminate].
    apply String.eqb_eq in H; subst; exists EmptyString; reflexivity.
  - apply orb_true_iff in H as [H|H].
    + apply String.eqb_eq in H; rewrite <- H; exists EmptyString; reflexivity.
    + destruct (IH H) as [t ->]; exists (String d t); reflexivity.
Qed.

Lemma list_ascii_app a b :
  list_ascii_of_string (a ++ b) = (list_ascii_of_string a ++ list_ascii_of_string b)%list.
Proof. induction a; simpl; [reflexivity | rewrite IHa; reflexivity]. Qed.

(** A string that ends in [x ++ c] does not end in [y ++ d] for [c <> d]. *)
Lemma endswith_last_char_excl t x c y d :
  c <> d -> endswith (y ++ String d EmptyString) (t ++ x ++ String c EmptyString) = false.
Proof.
  intros Hcd. destruct (endswith _ _) eqn:E; [|reflexivity].
  destruct (endswith_spec _ _ E) as [u Hu].
  apply (f_equal list_ascii_of_string) in Hu.
  rewrite !list_ascii_app in Hu. simpl in Hu.
  rewrite !app_assoc in Hu. apply app_inj_tail in Hu as [_ Hu].
  contradiction.
Qed.

Lemma string_of_uint_no_alpha (u : Decimal.uint) c :
  (nat_of_ascii c < 48 \/ 57 < nat_of_ascii c)%nat ->
  has_char c (NilEmpty.string_of_uint u) = false.
Proof.
  intros Hc; induction u; simpl; try reflexivity;
    rewrite IHu, orb_false_r; apply Ascii.eqb_neq; intros ->;
    cbv in Hc; lia.
Qed.

Lemma string_of_Z_no_alpha z c :
  (nat_of_ascii c < 45 \/ (45 < nat_of_ascii c < 48) \/ 57 < nat_of_ascii c)%nat ->
  has_char c (string_of_Z z) = false.
Proof.
  intros Hc; unfold string_of_Z, NilEmpty.string_of_int.
  destruct (Z.to_int z) as [u|u]; simpl.
  - apply string_of_uint_no_alpha; lia.
  - rewrite string_of_uint_no_alpha by lia; rewrite orb_false_r.
    apply Ascii.eqb_neq; intros ->; cbv in Hc; lia.
Qed.

End StrFacts.

(* ================================================================== *)
(** ** Shape of a normalised version constraint *)
(* ================================================================== *)

Module VersionFacts.
Import PyStr StrFacts Version.

Lemma str_app_assoc a b c : (a ++ b) ++ c = a ++ (b ++ c).
Proof. induction a; simpl; [reflexivity | rewrite IHa; reflexivity]. Qed.

Lemma contains_single c s : contains (String c EmptyString) s = has_char c s.
Proof.
  induction s as [|d s IH]; [reflexivity|].
  cbn [contains has_char]. rewrite IH.
  cbn [prefix]. rewrite prefix_nil.
  destruct (ascii_dec c d) as [->|Hne].
  - rewrite Ascii.eqb_refl; reflexivity.
  - apply Ascii.eqb_neq in Hne; rewrite Hne; reflexivity.
Qed.

(** The upper bound appended by [add_upper_bound]. *)
Definition upper_bound (m : Z) : string := ", <" ++ string_of_Z (m + 1) ++ ".0".

Lemma upper_bound_no_char m c :
  (60 < nat_of_ascii c)%nat -> has_char c (upper_bound m) = false.
Proof.
  intros Hc; unfold upper_bound.
  rewrite !has_char_app, string_of_Z_no_alpha by lia.
  destruct (Ascii.eqb c ",") eqn:E1; [apply Ascii.eqb_eq in E1; subst; cbv in Hc; lia|].
  destruct (Ascii.eqb c " ") eqn:E2; [apply Ascii.eqb_eq in E2; subst; cbv in Hc; lia|].
  destruct (Ascii.eqb c "<") eqn:E3; [apply Ascii.eqb_eq in E3; subst; cbv in Hc; lia|].
  destruct (Ascii.eqb c ".") eqn:E4; [apply Ascii.eqb_eq in E4; subst; cbv in Hc; lia|].
  destruct (Ascii.eqb c "0") eqn:E5; [apply Ascii.eqb_eq in E5; subst; cbv in Hc; lia|].
  simpl; rewrite E1, E2, E3, E4, E5; reflexivity.
Qed.

Lemma dot0_no_char c : (57 < nat_of_ascii c)%nat -> has_char c ".0" = false.
Proof.
  intros Hc; simpl.
  destruct (Ascii.eqb c ".") eqn:E4; [apply Ascii.eqb_eq in E4; subst; cbv in Hc; lia|].
  destruct (Ascii.eqb c "0") eqn:E5; [apply Ascii.eqb_eq in E5; subst; cbv in Hc; lia|].
  reflexivity.
Qed.

Lemma replaced_no_caret_tilde v :
  let w := replace "~" ">=" (replace "^" ">=" v) in
  has_char "^" w = false /\ has_char "~" w = false.
Proof.
  simpl; split.
  - destruct (has_char "^" _) eqn:E; [|reflexivity].
    destruct (replace_char_has_char _ _ _ _ E) as [[E1 _]|E1]; [|discriminate].
    destruct (replace_char_has_char _ _ _ _ E1) as [[_ E2]|E2]; [|discriminate].
    contradiction.
  - destruct (has_char "~" _) eqn:E; [|reflexivity].
    destruct (replace_char_has_char _ _ _ _ E) as [[_ E1]|E1]; [contradiction|discriminate].
Qed.

Lemma strip_version_markers_shape v :
  let s := strip_version_markers v in
  has_char "^" s = false /\ has_char "~" s = false /\ contains ".post" s = false.
Proof.
  unfold strip_version_markers.
  destruct (replaced_no_caret_tilde v) as [Hc Ht].
  set (w := replace "~" ">=" (replace "^" ">=" v)) in *.
  set (w1 := if endswith ".*" w then drop_last2 w else w).
  assert (Hw1 : forall c, has_char c w1 = true -> has_char c w = true).
  { intros c H; unfold w1 in H; destruct (endswith ".*" w); [|exact H].
    exact (substring0_has_char _ _ _ H). }
  assert (Hs : forall c, has_char c (if contains ".post" w1 then split_first ".post" w1 else w1) = true ->
                         has_char c w = true).
  { intros c H; apply Hw1; destruct (contains ".post" w1); [|exact H].
    exact (split_first_has_char _ _ _ H). }
  set (s3 := if contains ".post" w1 then split_first ".post" w1 else w1) in *.
  split; [|split].
  - destruct (has_char "^" s3) eqn:E; [|reflexivity].
    rewrite (Hs _ E) in Hc; discriminate.
  - destruct (has_char "~" s3) eqn:E; [|reflexivity].
    rewrite (Hs _ E) in Ht; discriminate.
  - unfold s3. destruct (contains ".post" w1) eqn:E; [|exact E].
    apply split_first_contains; discriminate.
Qed.

Lemma normalize_version_string_shape v :
  let n := normalize_version_string v in
  endswith ".0" n = true /\ has_char "^" n = false /\ has_char "~" n = false /\
  contains ".post" n = false /\ has_char "." n = true.
Proof.
  unfold normalize_version_string, ensure_patch_version.
  destruct (strip_version_markers_shape v) as (H1 & H2 & H3).
  set (s := strip_version_markers v) in *.
  destruct (endswith ".0" s) eqn:E; simpl negb; cbv iota.
  - destruct (endswith_spec _ _ E) as [t Ht].
    repeat split; try assumption.
    rewrite Ht, has_char_app; simpl; rewrite orb_true_r; reflexivity.
  - repeat split.
    + apply endswith_app.
    + rewrite has_char_app, H1; reflexivity.
    + rewrite has_char_app, H2; reflexivity.
    + change ".post" with (".pos" ++ String "t" EmptyString).
      rewrite contains_app_last by reflexivity. exact H3.
    + rewrite has_char_app; simpl; rewrite orb_true_r; reflexivity.
Qed.

(** Every result of [validate_version_constraint]: the normalised string
    itself, or it followed by the bound one major version up. *)
Lemma validate_shape v :
  validate_version_constraint v =
  let n := normalize_version_string v in
  if startswith ">=" n then
    option_map (fun m => n ++ upper_bound m) (int_of_string (replace ">=" "" (split_first "." n)))
  else Some n.
Proof.
  unfold validate_version_constraint, add_upper_bound_if_needed, add_upper_bound.
  simpl; destruct (startswith ">=" _); [|reflexivity].
  destruct (int_of_string _); reflexivity.
Qed.

Lemma extract_dep_version_app name v :
  has_char " " name = false -> extract_dep_version (name ++ " " ++ v) = (name, v).
Proof.
  unfold extract_dep_version; intros H.
  assert (split_once " " (name ++ " " ++ v) = (name, Some v)) as ->; [|reflexivity].
  induction name as [|d name IH]; [reflexivity|].
  cbn [has_char] in H. apply orb_false_iff in H as [H1 H2].
  cbn [append split_once]. rewrite Ascii.eqb_sym, H1.
  change (String " " v) with (" " ++ v). rewrite IH by exact H2; reflexivity.
Qed.

(** Re-normalising an output that starts with [">="] keeps the input as a
    prefix and appends the same bound again. *)
Lemma validate_renormalize v r :
  validate_version_constraint v = Some r -> startswith ">=" r = true ->
  exists m, r = normalize_version_string v ++ upper_bound m /\
            validate_version_constraint r = Some (r ++ upper_bound m).
Proof.
  rewrite validate_shape; cbv zeta.
  destruct (normalize_version_string_shape v) as (Hend & Hc & Ht & Hp & Hdot).
  set (n := normalize_version_string v) in *.
  destruct (startswith ">=" n) eqn:Hs.
  2:{ intros [= <-] Hr; rewrite Hr in Hs; discriminate. }
  destruct (int_of_string (replace ">=" "" (split_first "." n))) as [m|] eqn:Hm;
    [|discriminate].
  intros [= <-] _. exists m; split; [reflexivity|].
  assert (Hcr : has_char "^" (n ++ upper_bound m) = false)
    by (rewrite has_char_app, Hc, upper_bound_no_char by (cbv; lia); reflexivity).
  assert (Htr : has_char "~" (n ++ upper_bound m) = false)
    by (rewrite has_char_app, Ht, upper_bound_no_char by (cbv; lia); reflexivity).
  unfold validate_version_constraint, normalize_version_string, strip_version_markers.
  unfold replace.
  rewrite (replace_absent "^"), (replace_absent "~")
    by (rewrite contains_single; assumption).
  assert (Hend_r : n ++ upper_bound m = (n ++ ", <" ++ string_of_Z (m + 1)) ++ "." ++ String "0" EmptyString).
  { unfold upper_bound; rewrite !str_app_assoc; reflexivity. }
  replace (endswith ".*" (n ++ upper_bound m)) with false
    by (rewrite Hend_r; symmetry; apply (endswith_last_char_excl _ _ _ "."); discriminate).
  replace (contains ".post" (n ++ upper_bound m)) with false.
  2:{ change ".post" with (".pos" ++ String "t" EmptyString).
      rewrite contains_app_last by (apply upper_bound_no_char; cbv; lia).
      symmetry; exact Hp. }
  unfold ensure_patch_version.
  replace (endswith ".0" (n ++ upper_bound m)) with true
    by (rewrite Hend_r; symmetry; apply endswith_app).
  simpl negb; cbv iota.
  unfold add_upper_bound_if_needed.
  replace (startswith ">=" (n ++ upper_bound m)) with true
    by (symmetry; apply prefix_app; exact Hs).
  unfold add_upper_bound.
  rewrite split_first_app_char by exact Hdot.
  rewrite Hm; reflexivity.
Qed.

End VersionFacts.

(* ================================================================== *)
(** ** Python dictionaries *)
(* ================================================================== *)

(** A [dict] with string keys as an association list in insertion order:
    assigning to a present key updates it in place, a new key goes last. *)
Module PyDict.

Fixpoint get {V} (d : list (string * V)) (k : string) : option V :=
  match d with
  | [] => None
  | (k', v) :: d' => if String.eqb k k' then Some v else get d' k
  end.

Definition mem {V} (d : list (string * V)) (k : string) : bool :=
  match get d k with Some _ => true | None => false end.

(** [d[k] = v] *)
Fixpoint set {V} (d : list (string * V)) (k : string) (v : V) : list (string * V) :=
  match d with
  | [] => [(k, v)]
  | (k', v') :: d' => if String.eqb k k' then (k', v) :: d' else (k', v') :: set d' k v
  end.

(** [a | b]: a copy of [a] updated with the items of [b] in order. *)
Definition union {V} (a b : list (string * V)) : list (string * V) :=
  fold_left (fun acc kv => set acc (fst kv) (snd kv)) b a.

End PyDict.

(* ================================================================== *)
(** ** Module-name conflicts (migrate_repo.py 169-194, v2 88-103) *)
(* ================================================================== *)

Module Modules.
Import PyStr.

(** [PurePath.name] of a path string: the text after the last ["/"]. *)
Fixpoint path_name (p : string) : string :=
  match p with
  | EmptyString => EmptyString
  | String c p' =>
      if StrFacts.has_char "/" p' then path_name p'
      else if Ascii.eqb c "/" then p' else p
  end.

(** [name.rfind(".")], [None] for [-1]. *)
Fixpoint rfind (c : ascii) (s : string) : option nat :=
  match s with
  | EmptyString => None
  | String d s' =>
      match rfind c s' with
      | Some i => Some (S i)
      | None => if Ascii.eqb d c then Some 0 else None
      end
  end.

(** [PurePath.stem] (Python 3.12): the name without its last suffix. *)
Definition path_stem (p : string) : string :=
  let name := path_name p in
  match rfind "." name with
  | Some i => if (0 <? i)%nat && (i <? String.length name - 1)%nat then substring 0 i name else name
  | None => name
  end.

(** [get_python_files]: the glob results (in glob order) outside [.venv]. *)
Definition get_python_files (globbed : list string) : list string :=
  filter (fun p => negb (contains ".venv" p)) globbed.

(** [{p.stem: str(p) for p in files}] *)
Definition build_module_map (files : list string) : list (string * string) :=
  fold_left (fun m p => PyDict.set m (path_stem p) p) files [].

(** [module_map.get(p.stem) != str(p)] for each file in order. *)
Definition find_conflicts (files : list string) (module_map : list (string * string))
  : list (string * string) :=
  map (fun p => (path_stem p, p))
    (filter (fun p => match PyDict.get module_map (path_stem p) with
                      | Some q => negb (String.eqb q p)
                      | None => true
                      end) files).

Definition check_module_conflicts (globbed : list string) : list (string * string) :=
  let files := get_python_files globbed in
  find_conflicts files (build_module_map files).

End Modules.

Module V2Modules.
Import PyStr Modules.

(** The loop of migrate_repo_v2.py's [check_module_conflicts]: the state
    is [(conflicts, modules)]. *)
Definition check_module_conflicts_step (st : list (string * string) * list (string * string))
  (path : string) : list (string * string) * list (string * string) :=
  let '(conflicts, modules) := st in
  if contains ".venv" path then st
  else
    let module_name := path_stem path in
    if PyDict.mem modules module_name then ((conflicts ++ [(module_name, path)])%list, modules)
    else (conflicts, PyDict.set modules module_name path).

Definition check_module_conflicts (globbed : list string) : list (string * string) :=
  fst (fold_left check_module_conflicts_step globbed ([], [])).

End V2Modules.

Example test_stem : Modules.path_stem "/repo/a/util.py" = "util".
Proof. reflexivity. Qed.
Example test_stem_dotfile : Modules.path_stem "/repo/.hidden" = ".hidden".
Proof. reflexivity. Qed.

(* ================================================================== *)
(** ** Effects: printed lines, file-system and subprocess events, exceptions *)
(* ================================================================== *)

Module Effects.

Inductive exn := ValueError | TypeError | KeyError | IndexError | OSError.

(** An entry of the YAML tracking manifest. *)
Record TrackEntry := {
  te_path : string;
  te_status : string;
  te_last_updated : string;
  te_notes : string
}.

Inductive Event :=
  | EPrint (line : string)
  | EWriteFile (path : string)
  | ERemove (path : string)
  | ERun (cmd : list string)
  | ESaveTracking (repos : list TrackEntry).

Inductive result (A : Type) := Ok (a : A) | Raise (e : exn).
Arguments Ok {A} a.
Arguments Raise {A} e.

(** A computation yields the events it performed, in order, and either a
    value or the exception it raised after them. *)
Definition Out (A : Type) : Type := (list Event * result A)%type.

Definition ret {A} (a : A) : Out A := ([], Ok a).
Definition raise {A} (e : exn) : Out A := ([], Raise e).
Definition emit (ev : Event) : Out unit := ([ev], Ok tt).

Definition bind {A B} (m : Out A) (k : A -> Out B) : Out B :=
  match m with
  | (o1, Ok a) => let '(o2, r) := k a in ((o1 ++ o2)%list, r)
  | (o1, Raise e) => (o1, Raise e)
  end.

Notation "'let*' x ':=' m 'in' k" := (bind m (fun x => k))
  (at level 200, x name, m at level 100, k at level 200).

Fixpoint mapM {A B} (f : A -> Out B) (l : list A) : Out (list B) :=
  match l with
  | [] => ret []
  | x :: l' => let* y := f x in let* ys := mapM f l' in ret (y :: ys)
  end.

End Effects.

(* ================================================================== *)
(** ** Dependency formatting and dev dependencies (migrate_repo.py 431-656) *)
(* ================================================================== *)

Module StrOrder <: Orders.TotalLeBool'.

Definition t := string.

Definition leb := String.leb.

Theorem leb_total : forall a b, is_true (leb a b) \/ is_true (leb b a).
Proof. exact String.leb_total. Qed.

End StrOrder.

(** Python's [sorted] on strings: the lexicographic order on code points;
    any correct sort gives the same list for this total order. *)
Module StrSort := Sort StrOrder.

Module Deps.
Import PyStr Effects.

(** Values of a dependency table as tomlkit hands them over. *)
Inductive TomlValue :=
  | TStr (s : string)
  | TBool (b : bool)
  | TStrList (l : list string).

(** A dependency's constraint: a version string or a table. *)
Inductive Constraint :=
  | CStr (s : string)
  | CTable (t : list (string * TomlValue)).

Definition truthy (v : TomlValue) : bool :=
  match v with
  | TStr s => negb (String.eqb s EmptyString)
  | TBool b => b
  | TStrList l => match l with [] => false | _ => true end
  end.

(** [str(v)] *)
Definition py_str (v : TomlValue) : string :=
  match v with
  | TStr s => s
  | TBool true => "True"
  | TBool false => "False"
  | TStrList l => "[" ++ join ", " (map (fun x => "'" ++ x ++ "'") l) ++ "]"
  end.

Fixpoint chars (s : string) : list string :=
  match s with
  | EmptyString => []
  | String c s' => String c EmptyString :: chars s'
  end.

(** [",".join(extras)] *)
Definition join_extras (extras : TomlValue) : Out string :=
  match extras with
  | TStrList l => ret (join "," l)
  | TStr s => ret (join "," (chars s))
  | TBool _ => raise TypeError
  end.

Record RepoAnalysis := {
  duplicate_deps : list string;
  invalid_versions : list (string * string);
  module_conflicts : list (string * string);
  missing_stubs : list string;
  has_async : bool;
  has_type_annotations : bool;
  has_long_lines : bool;
  python_versions : list string
}.

(** The [[tool.poetry]] table, with the keys the conversion reads. *)
Record PoetryConfig := {
  pc_dependencies : list (string * Constraint);
  (** group name and its [dependencies] table, [None] when absent *)
  pc_group : list (string * option (list (string * Constraint)))
}.

Section Formatting.

(** [Path(p).resolve().as_uri()]: depends on the working directory and
    the file system, so it is a parameter of the model. *)
Variable path_uri : string -> string.

(** [normalize_version(constraint)] on [str(constraint)]; [int()] raises
    [ValueError] here, it is not caught. *)
Definition normalize_version (constraint : string) : Out string :=
  match Version.add_upper_bound_if_needed (Version.normalize_version_string constraint) with
  | Some r => ret r
  | None => raise ValueError
  end.

Definition format_dep_with_extras (dep : string) (extras : TomlValue) (version : string)
  : Out string :=
  let* extras_str := join_extras extras in
  ret (dep ++ "[" ++ extras_str ++ "] " ++ version).

Definition format_simple_dependency (dep constraint : string) : Out string :=
  if String.eqb constraint EmptyString then ret dep
  else let* v := normalize_version constraint in ret (dep ++ " " ++ v).

Definition has_non_version_keys (constraint : list (string * TomlValue)) : bool :=
  existsb (fun key => PyDict.mem constraint key) ["path"; "git"; "url"; "develop"].

Definition format_path_dependency (dep : string) (constraint : list (string * TomlValue))
  : Out string :=
  match PyDict.get constraint "path" with
  | Some (TStr p) => ret (dep ++ " @ " ++ path_uri p)
  | Some _ => raise TypeError
  | None => raise KeyError
  end.

(** [a or b or c] followed by [if ref:]: the first truthy value. *)
Fixpoint first_truthy (vs : list (option TomlValue)) : option TomlValue :=
  match vs with
  | [] => None
  | Some v :: vs' => if truthy v then Some v else first_truthy vs'
  | None :: vs' => first_truthy vs'
  end.

Definition format_git_dependency (dep : string) (constraint : list (string * TomlValue))
  : Out string :=
  match PyDict.get constraint "git" with
  | None => raise KeyError
  | Some git_url =>
      match first_truthy [PyDict.get constraint "rev"; PyDict.get constraint "tag";
                          PyDict.get constraint "branch"] with
      | Some ref => ret (dep ++ " @ git+" ++ py_str git_url ++ "@" ++ py_str ref)
      | None => ret (dep ++ " @ git+" ++ py_str git_url)
      end
  end.

Definition format_url_dependency (dep : string) (constraint : list (string * TomlValue))
  : Out string :=
  match PyDict.get constraint "url" with
  | Some url => ret (dep ++ " @ " ++ py_str url)
  | None => raise KeyError
  end.

Definition format_non_version_dependency (dep : string)
  (constraint : list (string * TomlValue)) : Out string :=
  if PyDict.mem constraint "path" then format_path_dependency dep constraint
  else if PyDict.mem constraint "git" then format_git_dependency dep constraint
  else if PyDict.mem constraint "url" then format_url_dependency dep constraint
  else ret dep.

Definition format_dict_dependency (dep : string) (constraint : list (string * TomlValue))
  : Out string :=
  if has_non_version_keys constraint then format_non_version_dependency dep constraint
  else
    match PyDict.get constraint "version" with
    | None => ret dep
    | Some v =>
        let* version := normalize_version (py_str v) in
        let extras := match PyDict.get constraint "extras" with
                      | Some e => e
                      | None => TStrList []
                      end in
        if truthy extras then format_dep_with_extras dep extras version
        else ret (dep ++ " " ++ version)
    end.

Definition format_dependency (dep : string) (constraint : Constraint) : Out string :=
  match constraint with
  | CTable t => format_dict_dependency dep t
  | CStr s => format_simple_dependency dep s
  end.

Definition get_all_group_deps (groups : list (string * option (list (string * Constraint))))
  : list (string * Constraint) :=
  flat_map (fun g => match snd g with Some ds => ds | None => [] end) groups.

Definition extract_dev_dependencies (poetry_config : PoetryConfig) : Out (list string) :=
  mapM (fun dc => format_dependency (fst dc) (snd dc))
    (get_all_group_deps (pc_group poetry_config)).

Definition build_type_stub_deps (stubs : list string) : list string :=
  map (fun pkg => "types-" ++ pkg ++ " >=2.0.0, <3.0") stubs.

Definition build_standard_tool_deps : list string :=
  ["pytest >=8.0.0, <9.0"; "ruff >=0.1.3, <0.2.0"; "mypy >=1.6.1, <2.0.0";
   "deptry >=0.14.2, <0.15.0"].

(** [dep.split(" ")[0].split("[")[0]] *)
Definition extract_dep_name (dep : string) : string :=
  split_first "[" (split_first " " dep).

Definition name_in (names : list string) (n : string) : bool :=
  existsb (String.eqb n) names.

Definition filter_new_deps (deps existing_names : list string) : list string :=
  filter (fun d => negb (name_in existing_names (extract_dep_name d))) deps.

Definition get_existing_dep_names (existing : list string) : list string :=
  map extract_dep_name existing.

Definition get_new_stubs (missing : list string) (existing_names : list string) : list string :=
  filter_new_deps (build_type_stub_deps missing) existing_names.

Definition get_new_tools (existing_names : list string) : list string :=
  filter_new_deps build_standard_tool_deps existing_names.

Definition build_dev_dependencies (poetry_config : PoetryConfig) (analysis : RepoAnalysis)
  : Out (list string) :=
  let* existing := extract_dev_dependencies poetry_config in
  let existing_names := get_existing_dep_names existing in
  let stubs := get_new_stubs (missing_stubs analysis) existing_names in
  let tools := get_new_tools existing_names in
  ret (StrSort.sort (existing ++ stubs ++ tools)%list).

End Formatting.
End Deps.

(* ================================================================== *)
(** ** Tool configuration (migrate_repo.py 378-419) *)
(* ================================================================== *)

Module Tools.
Import PyStr Deps.

(** Values of the generated [[tool.mypy]] and [[tool.ruff]] tables. *)
Inductive CfgVal :=
  | CBool (b : bool)
  | CInt (n : Z)
  | CStrList (l : list string).

Definition build_async_mypy_config : list (string * CfgVal) :=
  [("strict_optional", CBool true); ("warn_unused_awaits", CBool true)].

Definition build_strict_mypy_config : list (string * CfgVal) :=
  [("strict", CBool true); ("warn_return_any", CBool true)].

(** The three locals of [build_mypy_config]. *)
Definition async_cfg (analysis : RepoAnalysis) : list (string * CfgVal) :=
  if has_async analysis then build_async_mypy_config else [].

Definition strict_cfg (analysis : RepoAnalysis) : list (string * CfgVal) :=
  if has_type_annotations analysis then build_strict_mypy_config else [].

Definition mypy_exclude_cfg (analysis : RepoAnalysis) : list (string * CfgVal) :=
  match module_conflicts analysis with
  | [] => []
  | _ => [("exclude", CStrList ["before/.*"])]
  end.

Definition build_mypy_config (analysis : RepoAnalysis) : list (string * CfgVal) :=
  PyDict.union (PyDict.union (async_cfg analysis) (strict_cfg analysis))
    (mypy_exclude_cfg analysis).

Definition has_before_directory_conflicts (conflicts : list (string * string)) : bool :=
  existsb (fun c => contains "before/" (snd c)) conflicts.

(** The two locals of [build_ruff_config]. *)
Definition line_cfg (analysis : RepoAnalysis) : list (string * CfgVal) :=
  if has_long_lines analysis then [("line-length", CInt 100)] else [].

Definition ruff_exclude_cfg (analysis : RepoAnalysis) : list (string * CfgVal) :=
  if has_before_directory_conflicts (module_conflicts analysis)
  then [("exclude", CStrList ["before"])] else [].

Definition build_ruff_config (analysis : RepoAnalysis) : list (string * CfgVal) :=
  PyDict.union (line_cfg analysis) (ruff_exclude_cfg analysis).

End Tools.

(* ================================================================== *)
(** ** Facts about dictionaries and dependency names *)
(* ================================================================== *)

Module DepFacts.
Import PyStr StrFacts Deps.

Lemma get_in_nodup {V} (d : list (string * V)) k v :
  NoDup (map fst d) -> In (k, v) d -> PyDict.get d k = Some v.
Proof.
  induction d as [|[k' v'] d IH]; simpl; intros Hnd Hin; [contradiction|].
  inversion Hnd as [|? ? Hnotin Hnd']; subst.
  destruct Hin as [Heq|Hin].
  - inversion Heq; subst. rewrite String.eqb_refl. reflexivity.
  - destruct (String.eqb_spec k k') as [->|_].
    + exfalso. apply Hnotin. apply (in_map fst) in Hin. exact Hin.
    + apply IH; assumption.
Qed.

Lemma split_first_absent c s :
  has_char c s = false -> split_first (String c EmptyString) s = s.
Proof.
  induction s as [|d s IH]; simpl; intros H; [reflexivity|].
  apply orb_false_iff in H as [Hd Hs].
  destruct (ascii_dec c d) as [->|Hne].
  - rewrite Ascii.eqb_refl in Hd. discriminate.
  - rewrite IH by exact Hs. reflexivity.
Qed.

Lemma split_first_app_sep c a b :
  has_char c a = false -> split_first (String c EmptyString) (a ++ String c b) = a.
Proof.
  induction a as [|d a IH]; simpl; intros H.
  - destruct (ascii_dec c c) as [_|n]; [rewrite prefix_nil; reflexivity|contradiction].
  - apply orb_false_iff in H as [Hd Ha].
    destruct (ascii_dec c d) as [->|Hne].
    + rewrite Ascii.eqb_refl in Hd. discriminate.
    + rewrite IH by exact Ha. reflexivity.
Qed.

Definition stub_decl (pkg : string) : string := "types-" ++ pkg ++ " >=2.0.0, <3.0".

Lemma extract_dep_name_stub pkg :
  has_char " " pkg = false -> has_char "[" pkg = false ->
  extract_dep_name (stub_decl pkg) = "types-" ++ pkg.
Proof.
  intros Hsp Hbr. unfold extract_dep_name, stub_decl.
  change (" >=2.0.0, <3.0") with (String " " ">=2.0.0, <3.0").
  rewrite <- VersionFacts.str_app_assoc.
  rewrite split_first_app_sep.
  - apply split_first_absent. rewrite has_char_app. exact Hbr.
  - rewrite has_char_app. exact Hsp.
Qed.

Lemma filter_map_comm {A B} (f : B -> bool) (g : A -> B) l :
  filter f (map g l) = map g (filter (fun x => f (g x)) l).
Proof.
  induction l as [|x l IH]; simpl; [reflexivity|].
  destruct (f (g x)); simpl; rewrite IH; reflexivity.
Qed.

End DepFacts.

(* ================================================================== *)
(** ** The run of one repository (migrate_repo.py 707-1091) *)
(* ================================================================== *)

Module Driver.
Import PyStr Effects Deps.

Definition UV_PATH : string := "/home/jon/Work/.local/bin/uv".

(** [ExitCode] *)
Definition SUCCESS : Z := 0.
Definition FAILURE : Z := 1.

Definition nl : string := String (Ascii.ascii_of_nat 10) EmptyString.

(** What a run depends on besides its code: the repository and its files,
    the outcome of the commands it starts, and the tracking manifest. *)
Record Env := {
  (** [Path(repo_path).resolve()] and whether it exists *)
  repo : string;
  repo_exists : bool;
  (** [analyze_repo(repo)]: the record, or the text of the exception it
      raised (any exception is caught by [perform_analysis]) *)
  analyze_repo_result : RepoAnalysis + string;
  (** what [pyproject.toml] contains *)
  doc_has_poetry : bool;              (* "tool" in doc and "poetry" in doc["tool"] *)
  doc_has_project : bool;             (* "project" in doc *)
  doc_has_dependency_groups : bool;   (* "dependency-groups" in doc *)
  (** [build_new_pyproject] on the legacy table: a document, or the
      exception it raised *)
  build_new_pyproject_result : result unit;
  lock_exists : bool;                 (* poetry.lock *)
  venv_exists : bool;                 (* .venv *)
  (** [find_python_files(repo)] *)
  python_files : list string;
  (** a started command: [None] when it cannot be started (an [OSError]
      escapes [run_cmd]), [Some true] when it exits 0, [Some false] when it
      exits non-zero ([CalledProcessError], caught) *)
  cmd_result : list string -> option bool;
  cmd_stderr : list string -> string;
  (** [load_manifest()]: the [repos] list, [None] when it raises *)
  manifest : option (list TrackEntry);
  (** [str(repo.relative_to(Path.home() / "Work"))], [None] when it raises *)
  rel_path : option string;
  today : string
}.

Definition py_bool (b : bool) : string := if b then "True" else "False".

Definition len_str {A} (l : list A) : string := string_of_Z (Z.of_nat (length l)).

Definition print (s : string) : Out unit := emit (EPrint s).

Definition print_analysis_results (analysis : RepoAnalysis) : Out unit :=
  let* _ := print (nl ++ "Analysis Results:") in
  let* _ := print ("- Duplicate dependencies: " ++ len_str (duplicate_deps analysis)) in
  let* _ := print ("- Invalid versions: " ++ len_str (invalid_versions analysis)) in
  let* _ := print ("- Module conflicts: " ++ len_str (module_conflicts analysis)) in
  let* _ := print ("- Missing type stubs: " ++ len_str (missing_stubs analysis)) in
  let* _ := print ("- Has async code: " ++ py_bool (has_async analysis)) in
  let* _ := print ("- Has type annotations: " ++ py_bool (has_type_annotations analysis)) in
  let* _ := print ("- Has long lines: " ++ py_bool (has_long_lines analysis)) in
  print ("- Python versions: " ++ join ", " (python_versions analysis) ++ nl).

Definition perform_analysis (env : Env) : Out (option RepoAnalysis) :=
  match analyze_repo_result env with
  | inl analysis => let* _ := print_analysis_results analysis in ret (Some analysis)
  | inr e => let* _ := print ("Analysis failed: " ++ e) in ret None
  end.

Definition is_already_migrated (env : Env) : bool :=
  negb (doc_has_poetry env) && (doc_has_project env && doc_has_dependency_groups env).

Definition check_already_migrated (env : Env) : Out bool :=
  if is_already_migrated env
  then let* _ := print "Repository is already migrated to UV" in ret true
  else ret false.

Definition convert_pyproject (env : Env) : Out bool :=
  if negb (doc_has_poetry env)
  then let* _ := print "No Poetry configuration found" in ret false
  else
    match build_new_pyproject_result env with
    | Raise e => raise e
    | Ok _ => let* _ := emit (EWriteFile "pyproject.toml") in ret true
    end.

(** [s.split(c)] for a one-character separator. *)
Fixpoint split_char (c : ascii) (s : string) : list string :=
  match s with
  | EmptyString => [EmptyString]
  | String d s' =>
      if Ascii.eqb c d then EmptyString :: split_char c s'
      else match split_char c s' with
           | [] => [String d EmptyString]
           | h :: t => String d h :: t
           end
  end.

Definition extract_python_version (analysis : RepoAnalysis) : Out string :=
  match python_versions analysis with
  | [] => raise IndexError
  | v :: _ =>
      let version := strip (replace ">=" "" v) in
      match split_char "." version with
      | major :: minor :: _ => ret (major ++ "." ++ minor)
      | _ => raise ValueError
      end
  end.

Definition create_python_version_file (version : string) : Out unit :=
  emit (EWriteFile ".python-version").

Definition clean_old_files (env : Env) : Out unit :=
  let* _ := (if lock_exists env then emit (ERemove "poetry.lock") else ret tt) in
  if venv_exists env then emit (ERemove ".venv") else ret tt.

Definition perform_migration (env : Env) (analysis : RepoAnalysis) : Out bool :=
  let* converted := convert_pyproject env in
  if negb converted then ret false
  else
    let* version := extract_python_version analysis in
    let* _ := create_python_version_file version in
    let* _ := clean_old_files env in
    ret true.

Definition run_cmd (env : Env) (cmd : list string) : Out (bool * string) :=
  let* _ := emit (ERun cmd) in
  match cmd_result env cmd with
  | None => raise OSError
  | Some true => ret (true, EmptyString)
  | Some false => ret (false, "Error running " ++ join " " cmd ++ ":" ++ nl ++ cmd_stderr env cmd)
  end.

Definition build_base_commands : list (list string) :=
  [[UV_PATH; "sync"; "--refresh"]; [UV_PATH; "sync"; "--group"; "dev"]].

Definition build_check_commands_list (python_files : list string) : list (list string) :=
  [[UV_PATH; "run"; "ruff"; "check"; "."]; UV_PATH :: "run" :: "mypy" :: python_files;
   [UV_PATH; "run"; "pytest"]].

Definition build_check_commands (python_files : list string) : list (list string) :=
  match python_files with
  | [] => build_base_commands
  | _ => (build_base_commands ++ build_check_commands_list python_files)%list
  end.

(** The [UV_CACHE_DIR] environment of the commands is not modelled: it
    enters only through [cmd_result]. *)
Fixpoint execute_check_commands (env : Env) (cmds : list (list string)) : Out (bool * string) :=
  match cmds with
  | [] => ret (true, EmptyString)
  | cmd :: cmds' =>
      let* r := run_cmd env cmd in
      if fst r then execute_check_commands env cmds' else ret (false, snd r)
  end.

Definition run_checks (env : Env) (python_files : list string) : Out (bool * string) :=
  execute_check_commands env (build_check_commands python_files).

Definition run_migration_checks (env : Env) : Out (bool * string) :=
  run_checks env (python_files env).

Definition collect_commit_notes (analysis : RepoAnalysis) : list string :=
  ((match module_conflicts analysis with [] => [] | _ => ["excluded before/ directory"] end)
   ++ (match missing_stubs analysis with
       | [] => []
       | stubs => [("added type stubs: " ++ join ", " stubs)%string]
       end)
   ++ (if has_async analysis then ["configured async mypy checks"] else [])
   ++ (if has_type_annotations analysis then ["enabled strict mypy mode"] else []))%list.

Definition build_commit_notes (analysis : RepoAnalysis) : string :=
  match collect_commit_notes analysis with
  | [] => "converted with standard configuration"
  | notes => join "; " notes
  end.

Definition find_repo_in_manifest (repos : list TrackEntry) (rel_path : string)
  : option TrackEntry :=
  find (fun r => String.eqb (te_path r) rel_path) repos.

Definition update_repo_entry (repo_entry : TrackEntry) (status notes today : string)
  : TrackEntry :=
  {| te_path := te_path repo_entry; te_status := status;
     te_last_updated := today; te_notes := notes |}.

(** The manifest after the in-place update of the entry [find_repo_in_manifest]
    returned: the first one with the path. *)
Fixpoint update_first (repos : list TrackEntry) (rel_path : string)
    (f : TrackEntry -> TrackEntry) : list TrackEntry :=
  match repos with
  | [] => []
  | r :: repos' =>
      if String.eqb (te_path r) rel_path then f r :: repos'
      else r :: update_first repos' rel_path f
  end.

Definition update_manifest (env : Env) (status notes : string) : Out unit :=
  match manifest env with
  | None => raise OSError
  | Some repos =>
      match rel_path env with
      | None => raise ValueError
      | Some rp =>
          match find_repo_in_manifest repos rp with
          | Some _ =>
              emit (ESaveTracking
                      (update_first repos rp (fun r => update_repo_entry r status notes (today env))))
          | None => ret tt
          end
      end
  end.

Definition git_add_cmd : list string :=
  ["git"; "add"; "pyproject.toml"; ".python-version"; "uv.lock"].

Definition git_commit_cmd (analysis : RepoAnalysis) : list string :=
  ["git"; "commit"; "-m"; "chore: migrate from poetry to uv" ++ nl ++ nl ++ build_commit_notes analysis].

Definition commit_changes (env : Env) (analysis : RepoAnalysis) : Out unit :=
  let* _ := run_cmd env git_add_cmd in
  let note := build_commit_notes analysis in
  let* _ := run_cmd env (git_commit_cmd analysis) in
  update_manifest env "migrated" note.

Definition handle_migration_failure (error : string) : Out Z :=
  let* _ := print "Migration failed" in
  let* _ := print error in
  ret FAILURE.

Definition handle_migration_success (env : Env) (analysis : RepoAnalysis) : Out Z :=
  let* _ := commit_changes env analysis in
  let* _ := print "Migration successful" in
  ret SUCCESS.

Definition run_migration_and_checks (env : Env) (analysis : RepoAnalysis) : Out Z :=
  let* migrated := perform_migration env analysis in
  if negb migrated then ret FAILURE
  else
    let* r := run_migration_checks env in
    if fst r then handle_migration_success env analysis
    else handle_migration_failure (snd r).

(** [if not analysis]: a [RepoAnalysis] instance is always truthy. *)
Definition handle_analysis_and_checks (env : Env) (analysis : option RepoAnalysis) : Out Z :=
  match analysis with
  | None => ret FAILURE
  | Some a =>
      let* done_ := check_already_migrated env in
      if done_ then ret SUCCESS else run_migration_and_checks env a
  end.

Definition check_repo_exists (env : Env) : Out bool :=
  if repo_exists env then ret true
  else let* _ := print ("Repository " ++ repo env ++ " does not exist") in ret false.

(** The result of a run: [(events, Ok code)] when [migrate_repo] returns
    [code], [(events, Raise e)] when an exception escapes it (the process
    then exits with status 1 and a traceback). *)
Definition migrate_repo (env : Env) : Out Z :=
  let* exists_ := check_repo_exists env in
  if negb exists_ then ret FAILURE
  else
    let* _ := print ("Migrating " ++ repo env) in
    let* analysis := perform_analysis env in
    handle_analysis_and_checks env analysis.

(** Events that change the repository, run a command or write the tracking
    manifest: everything but printing. *)
Definition is_mutation (ev : Event) : bool :=
  match ev with
  | EPrint _ => false
  | _ => true
  end.

End Driver.

(* ================================================================== *)
(** ** Facts about runs *)
(* ================================================================== *)

Module DriverFacts.
Import PyStr Effects Deps Driver.

Lemma bind_ok {A B} (o : list Event) (a : A) (k : A -> Out B) :
  bind (o, Ok a) k = ((o ++ fst (k a))%list, snd (k a)).
Proof. cbn. destruct (k a); reflexivity. Qed.

Lemma run_cmd_some env cmd b :
  cmd_result env cmd = Some b ->
  exists msg, run_cmd env cmd = ([ERun cmd], Ok (b, msg)).
Proof.
  intros H. unfold run_cmd. cbn. rewrite H.
  destruct b; eexists; reflexivity.
Qed.

Lemma execute_check_commands_ok env cmds :
  (forall cmd, In cmd cmds -> cmd_result env cmd = Some true) ->
  execute_check_commands env cmds = (map ERun cmds, Ok (true, EmptyString)).
Proof.
  induction cmds as [|c cmds IH]; intros H; [reflexivity|].
  cbn [execute_check_commands]. unfold run_cmd.
  rewrite (H c (or_introl eq_refl)). cbn.
  rewrite IH by (intros cmd Hin; apply H; right; exact Hin). reflexivity.
Qed.

Definition not_tracking (ev : Event) : Prop :=
  match ev with ESaveTracking _ => False | _ => True end.

Lemma perform_migration_no_tracking env a evs r :
  perform_migration env a = (evs, r) -> Forall not_tracking evs.
Proof.
  unfold perform_migration, convert_pyproject, extract_python_version, clean_old_files,
    create_python_version_file.
  destruct (doc_has_poetry env); cbn.
  2: intros H; inversion H; repeat constructor.
  destruct (build_new_pyproject_result env); cbn.
  2: intros H; inversion H; repeat constructor.
  destruct (python_versions a) as [|v vs]; cbn.
  1: intros H; inversion H; repeat constructor.
  destruct (split_char "." (strip (replace ">=" "" v))) as [|x [|y zs]]; cbn;
    try (intros H; inversion H; repeat constructor; fail).
  destruct (lock_exists env), (venv_exists env); cbn; intros H; inversion H;
    repeat constructor.
Qed.

(** Reduce a run up to the next step whose outcome the environment decides. *)
Ltac run_step := cbn -[perform_migration run_cmd execute_check_commands update_manifest
  is_already_migrated len_str py_bool nl build_check_commands build_commit_notes
  git_commit_cmd git_add_cmd String.append app].

(** The run of a legacy repository whose migration and checks succeed and
    whose git commands can be started: whatever they exit with, it is the
    events [pre] (no tracking write among them) followed by the outcome of
    [update_manifest]. *)
Lemma legacy_run_shape (env : Driver.Env) a evs ok_add ok_commit :
  Driver.repo_exists env = true ->
  Driver.analyze_repo_result env = inl a ->
  Driver.is_already_migrated env = false ->
  Driver.perform_migration env a = (evs, Effects.Ok true) ->
  (forall cmd, In cmd (Driver.build_check_commands (Driver.python_files env)) ->
     Driver.cmd_result env cmd = Some true) ->
  Driver.cmd_result env Driver.git_add_cmd = Some ok_add ->
  Driver.cmd_result env (Driver.git_commit_cmd a) = Some ok_commit ->
  exists pre,
    Forall not_tracking pre /\
    forall o r,
      Driver.update_manifest env "migrated" (Driver.build_commit_notes a) = (o, r) ->
      Driver.migrate_repo env =
        ((pre ++ o ++ match r with
                      | Effects.Ok _ => [Effects.EPrint "Migration successful"]
                      | Effects.Raise _ => []
                      end)%list,
         match r with
         | Effects.Ok _ => Effects.Ok Driver.SUCCESS
         | Effects.Raise e => Effects.Raise e
         end).
Proof.
  intros Hex Han Ham Hpm Hck Hadd Hcom.
  destruct (run_cmd_some _ _ _ Hadd) as [m1 H1].
  destruct (run_cmd_some _ _ _ Hcom) as [m2 H2].
  unfold Driver.migrate_repo, Driver.check_repo_exists. rewrite Hex.
  unfold Driver.perform_analysis. rewrite Han.
  unfold Driver.handle_analysis_and_checks, Driver.check_already_migrated,
    Driver.run_migration_and_checks, Driver.run_migration_checks, Driver.run_checks,
    Driver.handle_migration_success, Driver.commit_changes.
  run_step. rewrite Ham. run_step. rewrite Hpm. run_step.
  rewrite (execute_check_commands_ok _ _ Hck). run_step.
  rewrite H1. run_step. rewrite H2. run_step.
  exists ([EPrint ("Migrating " ++ repo env)] ++ fst (print_analysis_results a) ++ evs
          ++ map ERun (build_check_commands (python_files env))
          ++ [ERun git_add_cmd; ERun (git_commit_cmd a)])%list.
  split.
  2:{ intros o r Hum. rewrite Hum.
      destruct r; run_step; rewrite ?app_nil_l, ?app_nil_r, <- ?app_assoc; reflexivity. }
  pose proof (perform_migration_no_tracking _ _ _ _ Hpm) as Hevs.
  repeat first
    [ exact Hevs
    | apply Forall_app; split
    | apply Forall_map, Forall_forall; intros; exact I
    | constructor ].
Qed.

End DriverFacts.

(* ================================================================== *)
(** ** Analysis helpers (migrate_repo.py 84-106, 350-354) *)
(* ================================================================== *)

Module Analysis.
Import PyStr Deps.

(** The generator of [find_duplicates_in_sequence]: [name in seen or
    seen.add(name)] yields a name seen before and otherwise adds it to
    [seen]. The [frozenset] of the yielded names is kept as the list of
    them; only membership in it is used. *)
Fixpoint find_duplicates_from (seen names : list string) : list string :=
  match names with
  | [] => []
  | name :: names' =>
      if name_in seen name then name :: find_duplicates_from seen names'
      else find_duplicates_from (name :: seen) names'
  end.

Definition find_duplicates_in_sequence (names : list string) : list string :=
  find_duplicates_from [] names.

(** [find_duplicate_dependencies(doc)] on [get_project_deps(doc)] (the
    [project.dependencies] array) and [get_dev_deps(doc)] (the
    [dependency-groups.dev] array), each [[]] when absent. *)
Definition find_duplicate_dependencies (project_deps dev_deps : list string) : list string :=
  let all_deps := (project_deps ++ dev_deps)%list in
  let names := map extract_dep_name all_deps in
  find_duplicates_in_sequence names.

(** [extract_python_versions(doc)] on [project.requires-python], [None]
    when the key is absent. *)
Definition extract_python_versions (requires_python : option string) : list string :=
  let r := match requires_python with Some r => r | None => ">=3.12,<4.0" end in
  map strip (Driver.split_char "," r).

End Analysis.

(* ================================================================== *)
(** ** Type-annotation scan (migrate_repo.py 197-204, 306-317) *)
(* ================================================================== *)

Module FileAnalysis.

(** The exceptions the scan can raise. *)
Inductive PyExc := UnicodeDecodeError | NameError (name : string).

(** [path.read_text()]: the text, or the exception it raises. *)
Inductive read_text_result := Text (s : string) | ReadOSError | ReadUnicodeDecodeError.

Section Scan.
(** Syntax-tree nodes; [parse] is [ast.parse] ([None] when it raises
    [SyntaxError]); [ast.walk(tree)] yields [tree] itself, then the nodes
    below it ([descendants]). *)
Context {Node : Type}.
Variable parse : string -> option Node.
Variable descendants : Node -> list Node.

Definition walk (tree : Node) : list Node := tree :: descendants tree.

(** [try: return ast.parse(path.read_text()) except (OSError, SyntaxError):
    return None]: a [UnicodeDecodeError] is not caught. *)
Definition read_file_as_syntax_tree (file : read_text_result) : PyExc + option Node :=
  match file with
  | Text s => inr (parse s)
  | ReadOSError => inr None
  | ReadUnicodeDecodeError => inl UnicodeDecodeError
  end.

(** [is_annotation_node] is defined nowhere in the module: evaluating the
    name raises [NameError]. *)
Definition is_annotation_node (n : Node) : PyExc + bool :=
  inl (NameError "is_annotation_node").

(** Python's short-circuiting [any] over a generator whose elements may
    raise. *)
Fixpoint any_exc {A : Type} (f : A -> PyExc + bool) (l : list A) : PyExc + bool :=
  match l with
  | [] => inr false
  | x :: l' =>
      match f x with
      | inl e => inl e
      | inr true => inr true
      | inr false => any_exc f l'
      end
  end.

Definition file_has_type_annotations (file : read_text_result) : PyExc + bool :=
  match read_file_as_syntax_tree file with
  | inl e => inl e
  | inr None => inr false
  | inr (Some tree) => any_exc is_annotation_node (walk tree)
  end.

(** [has_type_annotations(repo_path)] over the files of
    [get_python_files(repo_path)], each given by what reading it gives. *)
Definition has_type_annotations (files : list read_text_result) : PyExc + bool :=
  any_exc file_has_type_annotations files.

(** A file the scan passes over: unreadable ([OSError]) or not parseable. *)
Definition skipped (file : read_text_result) : bool :=
  match read_file_as_syntax_tree file with
  | inr None => true
  | _ => false
  end.

End Scan.
End FileAnalysis.

(* ================================================================== *)
(** ** Subprocess environment (migrate_repo.py 771-777) *)
(* ================================================================== *)

Module Subprocess.

(** [d.pop(k, None)] on a dictionary (keys are unique): the items without
    key [k]. *)
Definition pop {V} (d : list (string * V)) (k : string) : list (string * V) :=
  filter (fun kv => negb (String.eqb (fst kv) k)) d.

(** [merge_env(env)] with [os.environ] given as [environ]; [if env:] is
    false for [None] and for an empty dictionary. *)
Definition merge_env (environ : list (string * string)) (env : option (list (string * string)))
  : list (string * string) :=
  match env with
  | Some ((_ :: _) as e) => pop (PyDict.union environ e) "VIRTUAL_ENV"
  | _ => environ
  end.

End Subprocess.

(* ================================================================== *)
(** ** Runtime dependencies (migrate_repo.py 558-579) *)
(* ================================================================== *)

Module Project.
Import PyStr Effects Deps.

Section Extract.

(** [Path(p).resolve().as_uri()], as in [Deps]. *)
Variable path_uri : string -> string.
(** [str(t)] of a tomlkit table: only reached when the [python] entry is a
    table, so it is a parameter of the model. *)
Variable str_table : list (string * TomlValue) -> string.

Definition constraint_str (c : Constraint) : string :=
  match c with
  | CStr s => s
  | CTable t => str_table t
  end.

Definition is_not_python_dep (dep_name : string) : bool :=
  negb (String.eqb dep_name "python").

Definition get_non_python_deps (deps_dict : list (string * Constraint))
  : list (string * Constraint) :=
  filter (fun dc => is_not_python_dep (fst dc)) deps_dict.

(** [poetry_config.get("dependencies", {})] is [pc_dependencies] ([[]]
    when absent); the generator is consumed by [sorted]. *)
Definition extract_dependencies (poetry_config : PoetryConfig) : Out (list string * string) :=
  let deps_dict := pc_dependencies poetry_config in
  let* python_version :=
    normalize_version (match PyDict.get deps_dict "python" with
                       | Some c => constraint_str c
                       | None => "^3.12"
                       end) in
  let dep_items := get_non_python_deps deps_dict in
  let* formatted := mapM (fun dc => format_dependency path_uri (fst dc) (snd dc)) dep_items in
  ret (StrSort.sort formatted, python_version).

End Extract.

End Project.

(* ================================================================== *)
(** ** The loops of migrate_repo_v2.py (lines 26-45, 68-86, 205-229,
       348-363, 471-484) *)
(* ================================================================== *)

Module V2Loops.
Import PyStr Effects Deps Driver.

(** One iteration of [find_duplicate_dependencies]: the state is
    [(deps, duplicates)]; [deps.add(name)] is kept as the list of the names
    added (only membership in it is used). *)
Definition find_duplicates_step (st : list string * list string) (dep : string)
  : list string * list string :=
  let '(deps, duplicates) := st in
  let name := split_first "[" (split_first " " dep) in
  (name :: deps, if name_in deps name then (duplicates ++ [name])%list else duplicates).

(** The two loops over [project.dependencies] and [dependency-groups.dev]
    ([[]] when absent), sharing [deps] and [duplicates]. *)
Definition find_duplicate_dependencies (project_deps dev_deps : list string) : list string :=
  snd (fold_left find_duplicates_step dev_deps
         (fold_left find_duplicates_step project_deps ([], []))).

(** One iteration of [validate_version_constraints]: [dep.split(" ")[0]]
    and [" ".join(dep.split(" ")[1:])]; [not validate_version_constraint(version)]
    holds for [None] and for an empty result. *)
Definition validate_step (invalid : list (string * string)) (dep : string)
  : list (string * string) :=
  let parts := split_char " " dep in
  let name := hd EmptyString parts in
  let version := join " " (tl parts) in
  if match V2.validate_version_constraint version with
     | None => true
     | Some r => String.eqb r EmptyString
     end
  then (invalid ++ [(name, version)])%list else invalid.

Definition validate_version_constraints (project_deps dev_deps : list string)
  : list (string * string) :=
  fold_left validate_step dev_deps (fold_left validate_step project_deps []).

(** [configure_tools]: the [mypy] and [ruff] tables built by item
    assignment, in that order. *)
Definition configure_tools (analysis : RepoAnalysis)
  : list (string * Tools.CfgVal) * list (string * Tools.CfgVal) :=
  let mypy_config := @nil (string * Tools.CfgVal) in
  let mypy_config :=
    if has_async analysis then
      PyDict.set (PyDict.set mypy_config "strict_optional" (Tools.CBool true))
        "warn_unused_awaits" (Tools.CBool true)
    else mypy_config in
  let mypy_config :=
    if has_type_annotations analysis then
      PyDict.set (PyDict.set mypy_config "strict" (Tools.CBool true))
        "warn_return_any" (Tools.CBool true)
    else mypy_config in
  let mypy_config :=
    match module_conflicts analysis with
    | [] => mypy_config
    | _ => PyDict.set mypy_config "exclude" (Tools.CStrList ["before/.*"])
    end in
  let ruff_config := @nil (string * Tools.CfgVal) in
  let ruff_config :=
    if has_long_lines analysis then PyDict.set ruff_config "line-length" (Tools.CInt 100)
    else ruff_config in
  let ruff_config :=
    if existsb (fun conflict => contains "before/" (snd conflict)) (module_conflicts analysis)
    then PyDict.set ruff_config "exclude" (Tools.CStrList ["before"])
    else ruff_config in
  (mypy_config, ruff_config).

(** The environment [run_cmd] passes to [subprocess.run], with
    [os.environ] given as [environ]; [del] as [Subprocess.pop]. *)
Definition merged_env (environ : list (string * string)) (env : option (list (string * string)))
  : list (string * string) :=
  match env with
  | Some ((_ :: _) as e) =>
      let merged := PyDict.union environ e in
      if PyDict.mem merged "VIRTUAL_ENV" then Subprocess.pop merged "VIRTUAL_ENV" else merged
  | _ => environ
  end.

(** [update_manifest]: the loop updates the first entry with the path and
    stops; the manifest is written in every case. *)
Definition update_manifest (env : Env) (status notes : string) : Out unit :=
  match manifest env with
  | None => raise OSError
  | Some repos =>
      match rel_path env with
      | None => raise ValueError
      | Some rp =>
          emit (ESaveTracking
                  (update_first repos rp (fun r => update_repo_entry r status notes "2025-10-30")))
      end
  end.

End V2Loops.

(* ================================================================== *)
(** ** Facts about dictionaries, duplicates, manifests and checks *)
(* ================================================================== *)

Module ExtraFacts.
Import PyStr Effects Deps Driver.

Lemma name_in_spec (l : list string) (n : string) : name_in l n = true <-> In n l.
Proof.
  unfold name_in. rewrite existsb_exists. split.
  - intros [x [Hx He]]. apply String.eqb_eq in He. subst. exact Hx.
  - intros H. exists n. split; [exact H | apply String.eqb_refl].
Qed.

Lemma name_in_cons_neq (l : list string) (m n : string) :
  m <> n -> name_in (m :: l) n = name_in l n.
Proof.
  intros Hne. unfold name_in. cbn [existsb].
  rewrite (proj2 (String.eqb_neq n m)) by congruence. reflexivity.
Qed.

Lemma name_in_cons_eq (l : list string) (n : string) : name_in (n :: l) n = true.
Proof. unfold name_in. cbn [existsb]. rewrite String.eqb_refl. reflexivity. Qed.

(** A name is yielded iff, counting the copy already in [seen], it occurs
    at least twice. *)
Lemma find_duplicates_from_spec (seen names : list string) (n : string) :
  In n (Analysis.find_duplicates_from seen names) <->
  (2 <= count_occ String.string_dec names n + (if name_in seen n then 1 else 0))%nat.
Proof.
  revert seen. induction names as [|m names IH]; intros seen;
    cbn [Analysis.find_duplicates_from count_occ].
  - cbn [In]. destruct (name_in seen n); split; intros H; (contradiction || lia).
  - destruct (name_in seen m) eqn:Hm.
    + cbn [In]. rewrite IH. destruct (String.string_dec m n) as [->|Hne].
      * rewrite Hm. split; intros; [lia | left; reflexivity].
      * split; [intros [H|H]; [congruence | exact H] | intros H; right; exact H].
    + rewrite IH. destruct (String.string_dec m n) as [->|Hne].
      * rewrite Hm, name_in_cons_eq. lia.
      * rewrite name_in_cons_neq by exact Hne. reflexivity.
Qed.

Lemma get_app {V} (l1 l2 : list (string * V)) (k : string) :
  PyDict.get (l1 ++ l2) k =
  match PyDict.get l1 k with Some v => Some v | None => PyDict.get l2 k end.
Proof.
  induction l1 as [|[k' v'] l1 IH]; cbn; [reflexivity|].
  destruct (String.eqb k k'); [reflexivity | exact IH].
Qed.

Lemma get_set {V} (d : list (string * V)) (k : string) (v : V) (k' : string) :
  PyDict.get (PyDict.set d k v) k' = if String.eqb k' k then Some v else PyDict.get d k'.
Proof.
  induction d as [|[k0 v0] d IH]; cbn; [reflexivity|].
  destruct (String.eqb_spec k k0) as [->|Hne]; cbn.
  - destruct (String.eqb k' k0); reflexivity.
  - rewrite IH. destruct (String.eqb_spec k' k0) as [->|Hne'].
    + rewrite (proj2 (String.eqb_neq k0 k)) by congruence. reflexivity.
    + reflexivity.
Qed.

(** [a | b] looks a key up in the last item of [b] that has it, else in [a]. *)
Lemma get_union {V} (a b : list (string * V)) (k : string) :
  PyDict.get (PyDict.union a b) k =
  match PyDict.get (rev b) k with Some v => Some v | None => PyDict.get a k end.
Proof.
  unfold PyDict.union. revert a.
  induction b as [|[k0 v0] b IH]; intros a; cbn [fold_left rev]; [reflexivity|].
  rewrite IH, get_app, get_set. cbn [fst snd PyDict.get].
  destruct (PyDict.get (rev b) k); [reflexivity|].
  destruct (String.eqb k k0); reflexivity.
Qed.

Lemma get_some_in {V} (d : list (string * V)) (k : string) (v : V) :
  PyDict.get d k = Some v -> In k (map fst d).
Proof.
  induction d as [|[k0 v0] d IH]; cbn; [discriminate|].
  destruct (String.eqb_spec k k0) as [->|_]; [left; reflexivity|].
  intros H. right. exact (IH H).
Qed.

Lemma get_rev {V} (d : list (string * V)) (k : string) :
  NoDup (map fst d) -> PyDict.get (rev d) k = PyDict.get d k.
Proof.
  induction d as [|[k0 v0] d IH]; intros Hnd; [reflexivity|].
  cbn [rev map fst] in *. inversion Hnd as [|? ? Hnotin Hnd']; subst.
  rewrite get_app, IH by exact Hnd'. cbn.
  destruct (String.eqb_spec k k0) as [->|_].
  - destruct (PyDict.get d k0) eqn:Hg; [|reflexivity].
    exfalso. exact (Hnotin (get_some_in _ _ _ Hg)).
  - destruct (PyDict.get d k); reflexivity.
Qed.

Lemma get_pop {V} (d : list (string * V)) (k k' : string) :
  PyDict.get (Subprocess.pop d k) k' = if String.eqb k' k then None else PyDict.get d k'.
Proof.
  unfold Subprocess.pop.
  induction d as [|[k0 v0] d IH]; cbn [filter]; [destruct (String.eqb k' k); reflexivity|].
  cbn [fst]. destruct (String.eqb_spec k0 k) as [->|Hne]; cbn [negb].
  - rewrite IH. cbn. destruct (String.eqb k' k); reflexivity.
  - cbn. rewrite IH. destruct (String.eqb_spec k' k0) as [->|_].
    + rewrite (proj2 (String.eqb_neq k0 k)) by exact Hne. reflexivity.
    + reflexivity.
Qed.

Lemma split_char_cons (c : ascii) (s : string) : exists h t, split_char c s = h :: t.
Proof.
  induction s as [|d s IH]; cbn; [eauto|].
  destruct (Ascii.eqb c d); [eauto|].
  destruct IH as [h [t ->]]. eauto.
Qed.

Lemma update_first_spec (repos : list TrackEntry) (rp : string) (f : TrackEntry -> TrackEntry) :
  (find_repo_in_manifest repos rp = None -> update_first repos rp f = repos) /\
  (forall e, find_repo_in_manifest repos rp = Some e ->
     exists l1 l2, repos = (l1 ++ e :: l2)%list /\ Forall (fun r => te_path r <> rp) l1 /\
                   te_path e = rp /\ update_first repos rp f = (l1 ++ f e :: l2)%list).
Proof.
  unfold find_repo_in_manifest.
  induction repos as [|r repos [IH1 IH2]]; cbn [find update_first].
  - split; [reflexivity | discriminate].
  - destruct (String.eqb_spec (te_path r) rp) as [Hp|Hp].
    + split; [discriminate|]. intros e He. injection He as <-.
      exists [], repos. repeat split; auto.
    + split; [intros H; rewrite (IH1 H); reflexivity|].
      intros e He. destruct (IH2 e He) as [l1 [l2 [-> [Hf [He' Hu]]]]].
      exists (r :: l1), l2. rewrite Hu. repeat split; auto.
Qed.

Lemma find_repo_app (l1 l2 : list TrackEntry) (rp : string) :
  Forall (fun r => te_path r <> rp) l1 ->
  find_repo_in_manifest (l1 ++ l2) rp = find_repo_in_manifest l2 rp.
Proof.
  unfold find_repo_in_manifest. induction 1 as [|r l1 Hr _ IH]; [reflexivity|].
  cbn. rewrite (proj2 (String.eqb_neq _ _) Hr). exact IH.
Qed.

End ExtraFacts.

Module RunFacts.
Import PyStr Effects Deps Driver DriverFacts.




(** The check commands run in order until the first one that does not exit 0. *)
Lemma execute_check_commands_failure env pre c post :
  (forall x, In x pre -> cmd_result env x = Some true) ->
  cmd_result env c <> Some true ->
  execute_check_commands env (pre ++ c :: post)%list =
    (map ERun (pre ++ [c])%list,
     match cmd_result env c with
     | None => Raise OSError
     | Some _ => Ok (false, "Error running " ++ join " " c ++ ":" ++ nl ++ cmd_stderr env c)
     end).
Proof.
  intros Hpre Hc. induction pre as [|x pre IH].
  - cbn [app execute_check_commands map]. unfold run_cmd.
    destruct (cmd_result env c) as [[|]|] eqn:E; [contradiction| |]; reflexivity.
  - cbn [app execute_check_commands map]. unfold run_cmd at 1.
    rewrite (Hpre x (or_introl eq_refl)). cbn [bind emit ret fst snd app].
    rewrite IH by (intros y Hy; apply Hpre; right; exact Hy). reflexivity.
Qed.

End RunFacts.

(* ================================================================== *)
(** ** Example inputs *)
(* ================================================================== *)

Module Examples.
Import PyStr Effects Deps Driver.

Definition plain_analysis : RepoAnalysis := {|
  duplicate_deps := []; invalid_versions := []; module_conflicts := [];
  missing_stubs := []; has_async := false; has_type_annotations := false;
  has_long_lines := false; python_versions := [">=3.12"; "<4.0"] |}.

Definition demo_entry : TrackEntry := {|
  te_path := "demo"; te_status := "pending"; te_last_updated := "2026-01-01"; te_notes := "" |}.

(** A legacy repository ([poetry]) whose commands all exit 0 but [failing]. *)
Definition demo_env (poetry : bool) (failing : list string) : Env := {|
  repo := "/home/jon/Work/demo"; repo_exists := true;
  analyze_repo_result := inl plain_analysis;
  doc_has_poetry := poetry; doc_has_project := false; doc_has_dependency_groups := false;
  build_new_pyproject_result := Ok tt; lock_exists := true; venv_exists := false;
  python_files := ["main.py"];
  cmd_result := fun cmd => if list_eq_dec String.string_dec cmd failing
                           then Some false else Some true;
  cmd_stderr := fun _ => "failed";
  manifest := Some [demo_entry]; rel_path := Some "demo"; today := "2026-10-19" |}.

End Examples.

Module AnalysisFacts.
Import PyStr StrFacts Version VersionFacts.

Lemma validate_nonempty v r : validate_version_constraint v = Some r -> r <> EmptyString.
Proof.
  rewrite validate_shape; cbv zeta.
  destruct (normalize_version_string_shape v) as (_ & _ & _ & _ & Hdot).
  set (n := normalize_version_string v) in *.
  assert (Hn : forall u, n ++ u <> EmptyString) by (intros u; destruct n; discriminate).
  destruct (startswith ">=" n).
  - destruct (int_of_string _); cbn [option_map]; [|discriminate].
    intros [= <-]. apply Hn.
  - intros [= <-]. intros E. rewrite E in Hdot. discriminate.
Qed.

Lemma split_once_some c d n v :
  split_once c d = (n, Some v) -> d = n ++ String c v /\ has_char c n = false.
Proof.
  revert n. induction d as [|e d IH]; intros n; cbn [split_once]; [discriminate|].
  destruct (Ascii.eqb_spec e c) as [->|Hne].
  - intros [= <- <-]. split; reflexivity.
  - destruct (split_once c d) as [a r] eqn:E. intros [= <- ->].
    destruct (IH a eq_refl) as [-> Ha]. split; [reflexivity|].
    cbn [has_char]. rewrite Ha, orb_false_r.
    destruct (Ascii.eqb_spec c e); [congruence | reflexivity].
Qed.

End AnalysisFacts.

Module ConflictFacts.
Import PyStr Modules.

Lemma find_app {A} (f : A -> bool) (l1 l2 : list A) :
  find f (l1 ++ l2) = match find f l1 with Some x => Some x | None => find f l2 end.
Proof.
  induction l1 as [|x l1 IH]; cbn; [reflexivity|]. destruct (f x); [reflexivity | exact IH].
Qed.

(** The module map sends a stem to the last file with that stem. *)
Lemma build_module_map_get (fs : list string) (s : string) :
  PyDict.get (build_module_map fs) s = find (fun q => String.eqb (path_stem q) s) (rev fs).
Proof.
  unfold build_module_map.
  assert (H : forall m, PyDict.get (fold_left (fun m p => PyDict.set m (path_stem p) p) fs m) s =
    match find (fun q => String.eqb (path_stem q) s) (rev fs) with
    | Some q => Some q
    | None => PyDict.get m s
    end).
  { induction fs as [|p fs IH]; intros m; cbn [fold_left rev]; [reflexivity|].
    rewrite IH, find_app, ExtraFacts.get_set. cbn [find].
    destruct (find _ (rev fs)); [reflexivity|].
    rewrite (String.eqb_sym (path_stem p) s).
    destruct (String.eqb s (path_stem p)); reflexivity. }
  rewrite H. destruct (find _ _); reflexivity.
Qed.

(** In a list without repetitions, the last element satisfying [f] is [p]
    exactly when no element after [p] satisfies [f]. *)
Lemma find_rev_split {A} (f : A -> bool) (l1 : list A) (p : A) (l2 : list A) :
  NoDup (l1 ++ p :: l2) -> f p = true ->
  (find f (rev (l1 ++ p :: l2)) = Some p <-> existsb f l2 = false).
Proof.
  intros Hnd Hp. apply NoDup_remove_2 in Hnd.
  rewrite rev_app_distr. cbn [rev]. rewrite <- app_assoc, find_app, find_app. cbn [find app].
  rewrite Hp. split.
  - intros H. destruct (existsb f l2) eqn:Hex; [|reflexivity]. exfalso.
    apply existsb_exists in Hex as [q [Hq Hfq]].
    destruct (find f (rev l2)) as [y|] eqn:Ef.
    + injection H as ->. apply find_some in Ef as [Hy _].
      apply Hnd, in_or_app. right. rewrite in_rev. exact Hy.
    + assert (Hq' : In q (rev l2)) by (rewrite <- in_rev; exact Hq).
      rewrite (find_none _ _ Ef q Hq') in Hfq. discriminate.
  - intros Hex. destruct (find f (rev l2)) as [y|] eqn:Ef; [|reflexivity].
    apply find_some in Ef as [Hy Hfy]. rewrite <- in_rev in Hy.
    assert (existsb f l2 = true) by (apply existsb_exists; eauto). congruence.
Qed.

Lemma mem_set {V} (d : list (string * V)) (k : string) (v : V) (k' : string) :
  PyDict.mem (PyDict.set d k v) k' = String.eqb k' k || PyDict.mem d k'.
Proof.
  unfold PyDict.mem. rewrite ExtraFacts.get_set.
  destruct (String.eqb k' k); reflexivity.
Qed.

Lemma get_python_files_cons (x : string) (g : list string) :
  get_python_files (x :: g) =
  if contains ".venv" x then get_python_files g else x :: get_python_files g.
Proof. unfold get_python_files. cbn [filter]. destruct (contains ".venv" x); reflexivity. Qed.

(** The loop of v2's [check_module_conflicts], from any state. *)
Lemma v2_fold (globbed : list string) (conf mods : list (string * string)) (n p : string) :
  In (n, p) (fst (fold_left V2Modules.check_module_conflicts_step globbed (conf, mods))) <->
  In (n, p) conf \/
  (n = path_stem p /\ exists l1 l2, get_python_files globbed = (l1 ++ p :: l2)%list /\
     (PyDict.mem mods (path_stem p) = true \/
      exists q, In q l1 /\ path_stem q = path_stem p)).
Proof.
  revert conf mods. induction globbed as [|x g IH]; intros conf mods.
  - cbn. split; [auto|]. intros [H|[_ [l1 [l2 [H _]]]]]; [exact H|]. destruct l1; discriminate.
  - cbn [fold_left]. rewrite get_python_files_cons.
    assert (Hst : V2Modules.check_module_conflicts_step (conf, mods) x =
      if contains ".venv" x then (conf, mods)
      else if PyDict.mem mods (path_stem x) then ((conf ++ [(path_stem x, x)])%list, mods)
      else (conf, PyDict.set mods (path_stem x) x)) by reflexivity.
    rewrite Hst. destruct (contains ".venv" x); [apply IH|].
    destruct (PyDict.mem mods (path_stem x)) eqn:Hm.
    + rewrite IH, in_app_iff. cbn [In]. split.
      * intros [[H|[H|[]]]|[Hn [l1 [l2 [Hf Hq]]]]].
        -- left; exact H.
        -- injection H as <- <-. right. split; [reflexivity|].
           exists [], (get_python_files g). split; [reflexivity|]. left; exact Hm.
        -- right. split; [exact Hn|]. exists (x :: l1), l2. split; [rewrite Hf; reflexivity|].
           destruct Hq as [Hq|[q [Hq1 Hq2]]]; [left; exact Hq|].
           right; exists q; split; [right; exact Hq1 | exact Hq2].
      * intros [H|[Hn [l1 [l2 [Hf Hq]]]]]; [left; left; exact H|].
        destruct l1 as [|y l1]; cbn [app] in Hf; injection Hf as Hy Hf.
        -- subst. left. right. left. reflexivity.
        -- try subst y. right. split; [exact Hn|]. exists l1, l2. split; [exact Hf|].
           destruct Hq as [Hq|[q [[<-|Hq1] Hq2]]].
           ++ left; exact Hq.
           ++ left; rewrite <- Hq2; exact Hm.
           ++ right; exists q; split; assumption.
    + rewrite IH. split.
      * intros [H|[Hn [l1 [l2 [Hf Hq]]]]]; [left; exact H|].
        right. split; [exact Hn|]. exists (x :: l1), l2. split; [rewrite Hf; reflexivity|].
        rewrite mem_set in Hq. destruct Hq as [Hq|[q [Hq1 Hq2]]].
        -- apply orb_true_iff in Hq as [Hq|Hq].
           ++ right. exists x. split; [left; reflexivity|].
              apply String.eqb_eq in Hq. symmetry; exact Hq.
           ++ left; exact Hq.
        -- right; exists q; split; [right; exact Hq1 | exact Hq2].
      * intros [H|[Hn [l1 [l2 [Hf Hq]]]]]; [left; exact H|].
        destruct l1 as [|y l1]; cbn [app] in Hf; injection Hf as Hy Hf.
        -- subst. destruct Hq as [Hq|[q [[] _]]]. rewrite Hm in Hq. discriminate.
        -- try subst y. right. split; [exact Hn|]. exists l1, l2. split; [exact Hf|].
           rewrite mem_set. destruct Hq as [Hq|[q [[<-|Hq1] Hq2]]].
           ++ left. rewrite Hq, orb_true_r. reflexivity.
           ++ left. rewrite Hq2, String.eqb_refl. reflexivity.
           ++ right. exists q. split; assumption.
Qed.

End ConflictFacts.

Module FormatFacts.
Import PyStr StrFacts Effects Deps.

Lemma split_first_app_absent c a b :
  has_char c a = false ->
  split_first (String c EmptyString) (a ++ b) = a ++ split_first (String c EmptyString) b.
Proof.
  induction a as [|d a IH]; simpl; intros H; [reflexivity|].
  apply orb_false_iff in H as [Hd Ha].
  destruct (ascii_dec c d) as [->|Hne].
  - rewrite Ascii.eqb_refl in Hd. discriminate.
  - rewrite IH by exact Ha. reflexivity.
Qed.

(** Every formatted declaration is the name alone or the name followed by
    a space or an opening bracket. *)
Lemma format_dependency_named path_uri dep c evs r :
  format_dependency path_uri dep c = (evs, Ok r) ->
  r = dep \/ exists s, r = dep ++ String " " s \/ r = dep ++ String "[" s.
Proof.
  unfold format_dependency, format_dict_dependency, format_simple_dependency,
    format_non_version_dependency, format_path_dependency, format_git_dependency,
    format_url_dependency, format_dep_with_extras, normalize_version, join_extras.
  intros H.
  repeat (match type of H with
          | context [match ?x with _ => _ end] =>
              let T := type of x in
              let T' := eval cbv [Out] in T in
              lazymatch T' with prod _ _ => fail | _ => destruct x eqn:? end
          end; cbv [bind ret raise] in H; cbn [app] in H);
    try discriminate H; injection H as _ <-;
    first [ left; reflexivity
          | right; eexists; left; reflexivity
          | right; eexists; right; reflexivity ].
Qed.

Lemma extract_dep_name_named dep r :
  has_char " " dep = false -> has_char "[" dep = false ->
  (r = dep \/ exists s, r = dep ++ String " " s \/ r = dep ++ String "[" s) ->
  extract_dep_name r = dep.
Proof.
  intros Hsp Hbr Hr. unfold extract_dep_name.
  destruct Hr as [->|[s [->| ->]]].
  - rewrite (DepFacts.split_first_absent " " dep Hsp). exact (DepFacts.split_first_absent "[" dep Hbr).
  - rewrite DepFacts.split_first_app_sep by exact Hsp.
    apply DepFacts.split_first_absent. exact Hbr.
  - rewrite split_first_app_absent by exact Hsp.
    cbn [split_first prefix]. apply DepFacts.split_first_app_sep. exact Hbr.
Qed.

Lemma mapM_ok {A B} (f : A -> Out B) (l : list A) evs ys :
  mapM f l = (evs, Ok ys) -> Forall2 (fun x y => exists e, f x = (e, Ok y)) l ys.
Proof.
  revert evs ys. induction l as [|x l IH]; intros evs ys; cbn [mapM].
  - intros [= _ <-]. constructor.
  - unfold bind at 1. destruct (f x) as [e1 [y|ex]] eqn:Ef; [|discriminate].
    unfold bind. destruct (mapM f l) as [e2 [ys'|ex]] eqn:Em; [|discriminate].
    cbn. intros [= _ <-]. constructor; eauto.
Qed.

Lemma mapM_names path_uri (l : list (string * Constraint)) evs ys :
  Forall (fun dc => has_char " " (fst dc) = false /\ has_char "[" (fst dc) = false) l ->
  mapM (fun dc => format_dependency path_uri (fst dc) (snd dc)) l = (evs, Ok ys) ->
  map extract_dep_name ys = map fst l.
Proof.
  intros Hb Hm. apply mapM_ok in Hm. induction Hm as [|[d c] y l ys [e He] _ IH]; [reflexivity|].
  inversion Hb as [|? ? [Hsp Hbr] Hb']; subst. cbn [map fst].
  rewrite IH by exact Hb'. f_equal.
  exact (extract_dep_name_named _ _ Hsp Hbr (format_dependency_named _ _ _ _ _ He)).
Qed.

End FormatFacts.

Module V2Facts.
Import PyStr StrFacts Effects Deps Driver ExtraFacts.

Lemma find_duplicates_fold_count (l deps dups : list string) (n : string) :
  count_occ String.string_dec (snd (fold_left V2Loops.find_duplicates_step l (deps, dups))) n =
  (count_occ String.string_dec dups n +
   (count_occ String.string_dec (map extract_dep_name l) n - if name_in deps n then 0 else 1))%nat.
Proof.
  revert deps dups. induction l as [|x l IH]; intros deps dups; cbn [fold_left map count_occ].
  - cbn [snd]. destruct (name_in deps n); lia.
  - change (V2Loops.find_duplicates_step (deps, dups) x) with
      (extract_dep_name x :: deps,
       if name_in deps (extract_dep_name x) then (dups ++ [extract_dep_name x])%list else dups).
    rewrite IH. destruct (String.string_dec (extract_dep_name x) n) as [Heq|Hne].
    + rewrite Heq, name_in_cons_eq.
      destruct (name_in deps n); [rewrite count_occ_app; cbn [count_occ]|];
        try destruct (String.string_dec n n) as [_|C]; try congruence; lia.
    + rewrite name_in_cons_neq by exact Hne.
      destruct (name_in deps (extract_dep_name x)); [rewrite count_occ_app; cbn [count_occ]|];
        try destruct (String.string_dec (extract_dep_name x) n); try congruence; lia.
Qed.

Lemma pop_absent {V} (d : list (string * V)) (k : string) :
  PyDict.mem d k = false -> Subprocess.pop d k = d.
Proof.
  unfold PyDict.mem, Subprocess.pop.
  induction d as [|[k0 v0] d IH]; cbn; intros H; [reflexivity|].
  destruct (String.eqb_spec k k0) as [->|Hne]; [discriminate|].
  rewrite (proj2 (String.eqb_neq k0 k)) by congruence. cbn. rewrite IH by exact H. reflexivity.
Qed.

Lemma join_cons_head (sep : string) (d : ascii) (h : string) (t : list string) :
  join sep (String d h :: t) = String d (join sep (h :: t)).
Proof. destruct t; reflexivity. Qed.

(** [sep.join(s.split(sep)) == s] *)
Lemma join_split_char (c : ascii) (s : string) :
  join (String c EmptyString) (split_char c s) = s.
Proof.
  induction s as [|d s IH]; [reflexivity|]. cbn [split_char].
  destruct (ExtraFacts.split_char_cons c s) as [h [t Hs]].
  destruct (Ascii.eqb_spec c d) as [<-|Hne].
  - rewrite Hs in *.
    change (join (String c EmptyString) (EmptyString :: h :: t)) with
      (EmptyString ++ String c EmptyString ++ join (String c EmptyString) (h :: t)).
    rewrite IH. reflexivity.
  - rewrite Hs in *. rewrite join_cons_head, IH. reflexivity.
Qed.

(** [s.split(c, 1)] from [s.split(c)]. *)
Lemma split_once_split_char (c : ascii) (s : string) :
  split_once c s =
  (hd EmptyString (split_char c s),
   match tl (split_char c s) with
   | [] => None
   | t => Some (join (String c EmptyString) t)
   end).
Proof.
  induction s as [|d s IH]; [reflexivity|]. cbn [split_once split_char].
  destruct (ExtraFacts.split_char_cons c s) as [h [t Hs]].
  destruct (Ascii.eqb_spec d c) as [->|Hne].
  - rewrite Ascii.eqb_refl, Hs. cbn [hd tl]. rewrite <- Hs, join_split_char. reflexivity.
  - rewrite (proj2 (Ascii.eqb_neq c d)) by congruence. rewrite IH, Hs. reflexivity.
Qed.

Lemma v2_validate_eq (v : string) :
  V2.validate_version_constraint v = Version.validate_version_constraint v.
Proof. rewrite VersionFacts.validate_shape. reflexivity. Qed.

Lemma validate_step_spec (acc : list (string * string)) (x : string) :
  V2Loops.validate_step acc x =
  if Version.is_invalid_version (fst (Version.extract_dep_version x))
       (snd (Version.extract_dep_version x))
  then (acc ++ [Version.extract_dep_version x])%list else acc.
Proof.
  unfold V2Loops.validate_step, Version.extract_dep_version.
  rewrite split_once_split_char.
  assert (Hv : forall v, (match V2.validate_version_constraint v with
                          | None => true
                          | Some r => String.eqb r EmptyString
                          end) = Version.is_invalid_version "" v).
  { intros v. unfold Version.is_invalid_version. rewrite v2_validate_eq.
    destruct (String.eqb_spec v EmptyString) as [->|Hne]; [reflexivity|]. reflexivity. }
  rewrite Hv. unfold Version.is_invalid_version.
  destruct (tl (split_char " " x)) as [|y t]; reflexivity.
Qed.

Lemma validate_fold (l : list string) (acc : list (string * string)) :
  fold_left V2Loops.validate_step l acc =
  (acc ++ filter (fun nv => Version.is_invalid_version (fst nv) (snd nv))
                 (map Version.extract_dep_version l))%list.
Proof.
  revert acc. induction l as [|x l IH]; intros acc; cbn [fold_left map filter].
  - rewrite app_nil_r. reflexivity.
  - rewrite IH, validate_step_spec.
    destruct (Version.is_invalid_version _ _); [rewrite <- app_assoc; reflexivity | reflexivity].
Qed.

End V2Facts.

Module FileAnalysisFacts.
Import FileAnalysis.

Lemma has_type_annotations_scan {Node : Type} (parse : string -> option Node)
    (descendants : Node -> list Node) (pre : list read_text_result)
    (f : read_text_result) (post : list read_text_result) :
  Forall (fun g => skipped parse g = true) pre ->
  skipped parse f = false ->
  has_type_annotations parse descendants (pre ++ f :: post)%list =
    inl (match f with
         | ReadUnicodeDecodeError => UnicodeDecodeError
         | _ => NameError "is_annotation_node"
         end).
Proof.
  intros Hpre Hf. unfold has_type_annotations.
  induction Hpre as [|g pre Hg Hpre IH]; cbn [app any_exc].
  - unfold file_has_type_annotations. unfold skipped in Hf.
    destruct f as [s| |]; cbn in Hf |- *; [|discriminate|reflexivity].
    destruct (parse s); [reflexivity|discriminate].
  - unfold file_has_type_annotations. unfold skipped in Hg.
    destruct (read_file_as_syntax_tree parse g) as [e|[t|]]; try discriminate.
    exact IH.
Qed.

Lemma has_type_annotations_all_skipped {Node : Type} (parse : string -> option Node)
    (descendants : Node -> list Node) (files : list read_text_result) :
  Forall (fun g => skipped parse g = true) files ->
  has_type_annotations parse descendants files = inr false.
Proof.
  intros H. unfold has_type_annotations.
  induction H as [|g files Hg H IH]; cbn [any_exc]; [reflexivity|].
  unfold file_has_type_annotations. unfold skipped in Hg.
  destruct (read_file_as_syntax_tree parse g) as [e|[t|]]; try discriminate.
  exact IH.
Qed.

End FileAnalysisFacts.

(* ================================================================== *)
(** ** Claims *)
(* ================================================================== *)

Module Claims.
Import PyStr StrFacts Version VersionFacts.

(** Number of dot-separated components of a version numeral. *)
Fixpoint dotted_components (s : string) : nat :=
  match s with
  | EmptyString => 1
  | String c s' => (if Ascii.eqb c "." then 1 else 0) + dotted_components s'
  end.

(** The lower bound of a normalised constraint: the text before [", <"]. *)
Definition lower_bound (r : string) : string := split_first "," r.

(** The four standard tooling declarations with their bare names, as the
    spec lists them: test runner, linter, type checker, dependency-hygiene
    checker. *)
Definition standard_tools : list (string * string) :=
  [("pytest", "pytest >=8.0.0, <9.0"); ("ruff", "ruff >=0.1.3, <0.2.0");
   ("mypy", "mypy >=1.6.1, <2.0.0"); ("deptry", "deptry >=0.14.2, <0.15.0")].

(** A legacy configuration with one development group, and an analysis
    record reporting two missing stubs. *)
Definition example_poetry_config : Deps.PoetryConfig := {|
  Deps.pc_dependencies := [("requests", Deps.CStr "^2.31.0")];
  Deps.pc_group :=
    [("dev", Some [("pytest", Deps.CStr "^7.0");
                   ("black", Deps.CTable [("version", Deps.TStr "^23.1");
                                          ("extras", Deps.TStrList ["d"])])])]
|}.

Definition example_analysis : Deps.RepoAnalysis := {|
  Deps.duplicate_deps := [];
  Deps.invalid_versions := [];
  Deps.module_conflicts := [];
  Deps.missing_stubs := ["requests"; "yaml"];
  Deps.has_async := false;
  Deps.has_type_annotations := false;
  Deps.has_long_lines := false;
  Deps.python_versions := [">=3.12"]
|}.

(** Repositories for the run-level claims.  [example_env_migrated] holds a
    manifest already in the target format, with the given outcome of the
    analysis. *)
Definition example_env_migrated (analysis : Deps.RepoAnalysis + string) : Driver.Env := {|
  Driver.repo := "/home/jon/Work/demo";
  Driver.repo_exists := true;
  Driver.analyze_repo_result := analysis;
  Driver.doc_has_poetry := false;
  Driver.doc_has_project := true;
  Driver.doc_has_dependency_groups := true;
  Driver.build_new_pyproject_result := Effects.Ok tt;
  Driver.lock_exists := false;
  Driver.venv_exists := true;
  Driver.python_files := ["demo/main.py"];
  Driver.cmd_result := fun _ => Some true;
  Driver.cmd_stderr := fun _ => EmptyString;
  Driver.manifest := Some [];
  Driver.rel_path := Some "demo";
  Driver.today := "2024-01-15"
|}.

(** The message of the exception raised by the analysis of a tree holding a
    parseable source file: [file_has_type_annotations] calls
    [is_annotation_node], which is not defined. *)
Definition name_error : string := "name 'is_annotation_node' is not defined".

(** A legacy repository whose checks pass and whose [git add] and
    [git commit] both exit non-zero; [tracked] says whether the tracking
    manifest has an entry for it. *)
Definition example_env_legacy (tracked : bool) : Driver.Env := {|
  Driver.repo := "/home/jon/Work/demo";
  Driver.repo_exists := true;
  Driver.analyze_repo_result := inl example_analysis;
  Driver.doc_has_poetry := true;
  Driver.doc_has_project := false;
  Driver.doc_has_dependency_groups := false;
  Driver.build_new_pyproject_result := Effects.Ok tt;
  Driver.lock_exists := true;
  Driver.venv_exists := true;
  Driver.python_files := ["demo/main.py"];
  Driver.cmd_result := fun cmd =>
    match cmd with "git" :: _ => Some false | _ => Some true end;
  Driver.cmd_stderr := fun _ => "fatal: not a git repository";
  Driver.manifest :=
    Some (if tracked
          then [{| Effects.te_path := "demo"; Effects.te_status := "pending";
                   Effects.te_last_updated := "2024-01-01"; Effects.te_notes := EmptyString |}]
          else []);
  Driver.rel_path := Some "demo";
  Driver.today := "2024-01-15"
|}.

(** C1 (amended).  [validate_version_constraint] replaces caret and tilde
    by [">="], drops a trailing [".*"] and everything from the first
    [".post"], appends [".0"] exactly when the string does not already
    end in [".0"] (no three-component form is enforced), and, when the
    result starts with [">="], appends [", <M.0"] with [M] one more than
    [int()] of the leading field ([None] when that [int()] fails); the
    documented examples hold ([">=1.2.3.0, <2.0"], [">=2.0, <3.0"],
    [">=3.0, <4.0"]) and migrate_repo_v2.py computes the same function. *)
Theorem validate_version_constraint_pipeline v :
  let n := normalize_version_string v in
  n = (let s := strip_version_markers v in if endswith ".0" s then s else s ++ ".0") /\
  endswith ".0" n = true /\ has_char "^" n = false /\ has_char "~" n = false /\
  contains ".post" n = false /\
  validate_version_constraint v =
    (if startswith ">=" n then
       option_map (fun m => n ++ ", <" ++ string_of_Z (m + 1) ++ ".0")
         (int_of_string (replace ">=" "" (split_first "." n)))
     else Some n) /\
  V2.validate_version_constraint v = validate_version_constraint v /\
  validate_version_constraint "^1.2.3" = Some ">=1.2.3.0, <2.0" /\
  validate_version_constraint "~2.0" = Some ">=2.0, <3.0" /\
  validate_version_constraint ">=3.0.*" = Some ">=3.0, <4.0".
Proof.
  destruct (normalize_version_string_shape v) as (H1 & H2 & H3 & H4 & _).
  cbv zeta. refine (conj _ (conj H1 (conj H2 (conj H3 (conj H4 _))))).
  - unfold normalize_version_string, ensure_patch_version.
    destruct (endswith ".0" (strip_version_markers v)); reflexivity.
  - split; [rewrite validate_shape; reflexivity|].
    repeat split; reflexivity.
Qed.

(** C1 counterexample: the lower bound of ["^1.2.3"] has four components
    and that of ["~2.0"] two, not three. *)
Lemma validate_version_constraint_not_three_components :
  validate_version_constraint "^1.2.3" = Some ">=1.2.3.0, <2.0" /\
  dotted_components (lower_bound ">=1.2.3.0, <2.0") = 4%nat /\
  validate_version_constraint "~2.0" = Some ">=2.0, <3.0" /\
  dotted_components (lower_bound ">=2.0, <3.0") = 2%nat.
Proof. repeat split; reflexivity. Qed.

(** C2 (amended).  Normalisation is a function, and re-normalising an
    output that starts with [">="] does not reproduce it: the output is the
    normalised input followed by one bound [", <M.0"], and re-normalising it
    appends that same bound a second time. *)
Theorem validate_version_constraint_renormalize_appends v r :
  validate_version_constraint v = Some r -> startswith ">=" r = true ->
  exists m,
    r = normalize_version_string v ++ ", <" ++ string_of_Z (m + 1) ++ ".0" /\
    validate_version_constraint r = Some (r ++ ", <" ++ string_of_Z (m + 1) ++ ".0").
Proof.
  intros Hv Hs.
  destruct (validate_renormalize v r Hv Hs) as [m [Hr Hrr]].
  exists m; split; assumption.
Qed.

Lemma validate_version_constraint_renormalize_appends_witness :
  validate_version_constraint "~2.0" = Some ">=2.0, <3.0" /\
  exists m,
    ">=2.0, <3.0" = normalize_version_string "~2.0" ++ ", <" ++ string_of_Z (m + 1) ++ ".0" /\
    validate_version_constraint ">=2.0, <3.0"
      = Some (">=2.0, <3.0" ++ ", <" ++ string_of_Z (m + 1) ++ ".0").
Proof.
  split; [reflexivity|].
  apply (validate_version_constraint_renormalize_appends "~2.0" ">=2.0, <3.0");
    reflexivity.
Defined.

(** C2 counterexample: ["~2.0"] normalises to [">=2.0, <3.0"], which
    re-normalises to [">=2.0, <3.0, <3.0"], a duplicated upper bound. *)
Lemma validate_version_constraint_not_idempotent :
  validate_version_constraint "~2.0" = Some ">=2.0, <3.0" /\
  validate_version_constraint ">=2.0, <3.0" = Some ">=2.0, <3.0, <3.0" /\
  validate_version_constraint ">=2.0, <3.0" <> Some ">=2.0, <3.0".
Proof. split; [reflexivity|]. split; [reflexivity|]. vm_compute; discriminate. Qed.

(** C3 (amended).  [validate_version_constraint] returns [None] (it never
    raises) exactly when the normalised string starts with [">="] and its
    leading field is not an integer literal, e.g. [">=bad"]; a constraint
    that does not start with [">="] (after caret/tilde replacement) is
    never rejected.  Every [name version] declaration whose version is
    rejected is recorded as the pair [(name, version)] by
    [validate_version_constraints]. *)
Theorem validate_version_constraint_invalid_recorded :
  (forall v, validate_version_constraint v = None <->
     startswith ">=" (normalize_version_string v) = true /\
     int_of_string (replace ">=" "" (split_first "." (normalize_version_string v))) = None) /\
  validate_version_constraint ">=bad" = None /\
  (forall deps name v,
     has_char " " name = false -> v <> EmptyString -> In (name ++ " " ++ v) deps ->
     validate_version_constraint v = None ->
     In (name, v) (validate_version_constraints deps)).
Proof.
  split; [|split; [reflexivity|]].
  - intros v; rewrite validate_shape; cbv zeta.
    destruct (startswith ">=" _); [|split; [discriminate | intros [H _]; discriminate]].
    destruct (int_of_string _); simpl; split.
    + discriminate.
    + intros [_ H]; discriminate.
    + intros _; split; reflexivity.
    + intros _; reflexivity.
  - intros deps name v Hname Hv Hin Hbad.
    unfold validate_version_constraints; apply filter_In; split.
    + apply in_map_iff; exists (name ++ " " ++ v); split;
        [apply extract_dep_version_app; exact Hname | exact Hin].
    + unfold is_invalid_version; simpl; rewrite Hbad.
      destruct v; [contradiction | reflexivity].
Qed.

Lemma validate_version_constraint_invalid_recorded_witness :
  In ("pkg", ">=bad") (validate_version_constraints ["pkg >=bad"]).
Proof.
  apply (proj2 (proj2 validate_version_constraint_invalid_recorded) ["pkg >=bad"] "pkg" ">=bad").
  - reflexivity.
  - vm_compute; discriminate.
  - simpl; left; reflexivity.
  - reflexivity.
Defined.

(** C3 counterexample: ["bad"] has a non-numeric leading component, yet it
    is normalised to ["bad.0"] and not recorded as invalid. *)
Lemma validate_version_constraint_bad_accepted :
  validate_version_constraint "bad" = Some "bad.0" /\
  validate_version_constraints ["pkg bad"] = [].
Proof. split; reflexivity. Qed.

(** *** C4 *)

(** C4: on the glob order ["/repo/a/util.py"; "/repo/b/util.py"], the
    last-wins module map of migrate_repo.py makes the second file canonical,
    so its single conflict entry names the FIRST file; the sibling
    migrate_repo_v2.py, whose loop keeps the first occurrence, names the
    second file. *)
Theorem check_module_conflicts_names_earlier_file :
  Modules.check_module_conflicts ["/repo/a/util.py"; "/repo/b/util.py"]
    = [("util", "/repo/a/util.py")] /\
  V2Modules.check_module_conflicts ["/repo/a/util.py"; "/repo/b/util.py"]
    = [("util", "/repo/b/util.py")].
Proof. split; reflexivity. Qed.

(** *** C5 *)

(** C5: a version-control table with a revision and extras
    ({git = "https://github.com/user/repo.git", rev = "main",
    extras = ["test"]}) is formatted without its extras, for any resolution
    of local paths. *)
Theorem format_git_dependency_drops_extras (path_uri : string -> string) :
  Deps.format_dependency path_uri "mypackage"
    (Deps.CTable [("git", Deps.TStr "https://github.com/user/repo.git");
                  ("rev", Deps.TStr "main"); ("extras", Deps.TStrList ["test"])])
  = ([], Effects.Ok "mypackage @ git+https://github.com/user/repo.git@main").
Proof. reflexivity. Qed.

(** *** C6 *)

(** C6: a path table with [develop = true] ({path = "../pkg",
    develop = true}) is formatted to the file reference with no event at all:
    no warning is printed. *)
Theorem format_path_dependency_no_warnings (path_uri : string -> string) :
  Deps.format_dependency path_uri "localpackage"
    (Deps.CTable [("path", Deps.TStr "../pkg"); ("develop", Deps.TBool true)])
  = ([], Effects.Ok ("localpackage @ " ++ path_uri "../pkg")).
Proof. reflexivity. Qed.

(** *** C7 *)

(** C7: for every analysis record, the merged mypy configuration is the
    concatenation of the contributions of the triggered rules (async, strict,
    exclusion) and the merged ruff configuration that of its rules (line
    length, exclusion); all keys a rule can contribute are pairwise distinct,
    so every triggered rule's key is found in the merged table with that
    rule's value. *)
Theorem tool_config_rules_disjoint (a : Deps.RepoAnalysis) :
  Tools.build_mypy_config a
    = (Tools.async_cfg a ++ Tools.strict_cfg a ++ Tools.mypy_exclude_cfg a)%list /\
  Tools.build_ruff_config a = (Tools.line_cfg a ++ Tools.ruff_exclude_cfg a)%list /\
  NoDup (map fst (Tools.build_async_mypy_config ++ Tools.build_strict_mypy_config
                  ++ [("exclude", Tools.CStrList ["before/.*"])])%list) /\
  NoDup (map fst [("line-length", Tools.CInt 100); ("exclude", Tools.CStrList ["before"])]) /\
  (forall k v, In (k, v) (Tools.async_cfg a ++ Tools.strict_cfg a ++ Tools.mypy_exclude_cfg a)%list ->
     PyDict.get (Tools.build_mypy_config a) k = Some v) /\
  (forall k v, In (k, v) (Tools.line_cfg a ++ Tools.ruff_exclude_cfg a)%list ->
     PyDict.get (Tools.build_ruff_config a) k = Some v).
Proof.
  assert (Hm : Tools.build_mypy_config a
    = (Tools.async_cfg a ++ Tools.strict_cfg a ++ Tools.mypy_exclude_cfg a)%list).
  { unfold Tools.build_mypy_config, Tools.async_cfg, Tools.strict_cfg, Tools.mypy_exclude_cfg.
    destruct (Deps.has_async a), (Deps.has_type_annotations a), (Deps.module_conflicts a);
      reflexivity. }
  assert (Hr : Tools.build_ruff_config a = (Tools.line_cfg a ++ Tools.ruff_exclude_cfg a)%list).
  { unfold Tools.build_ruff_config, Tools.line_cfg, Tools.ruff_exclude_cfg.
    destruct (Deps.has_long_lines a),
      (Tools.has_before_directory_conflicts (Deps.module_conflicts a)); reflexivity. }
  assert (Hnm : NoDup (map fst (Tools.async_cfg a ++ Tools.strict_cfg a
                                ++ Tools.mypy_exclude_cfg a)%list)).
  { unfold Tools.async_cfg, Tools.strict_cfg, Tools.mypy_exclude_cfg.
    destruct (Deps.has_async a), (Deps.has_type_annotations a), (Deps.module_conflicts a);
      cbn; repeat constructor; cbn; intuition discriminate. }
  assert (Hnr : NoDup (map fst (Tools.line_cfg a ++ Tools.ruff_exclude_cfg a)%list)).
  { unfold Tools.line_cfg, Tools.ruff_exclude_cfg.
    destruct (Deps.has_long_lines a),
      (Tools.has_before_directory_conflicts (Deps.module_conflicts a));
      cbn; repeat constructor; cbn; intuition discriminate. }
  refine (conj Hm (conj Hr (conj _ (conj _ (conj _ _))))).
  - cbn. repeat constructor; cbn; intuition discriminate.
  - cbn. repeat constructor; cbn; intuition discriminate.
  - intros k v Hin. rewrite Hm. apply DepFacts.get_in_nodup; assumption.
  - intros k v Hin. rewrite Hr. apply DepFacts.get_in_nodup; assumption.
Qed.

(** *** C8 *)

(** C8: when the legacy development groups format without raising (to the
    list [existing], after the events [evs]) and the missing-stub candidates
    are bare package names (no space, no bracket), the assembled list is a
    permutation of [existing], one stub declaration per candidate whose stub
    name is not a name in [existing], and each standard tool whose bare name
    is not a name in [existing]; and it is sorted by full declaration
    string. *)
Theorem build_dev_dependencies_assembly (path_uri : string -> string)
    (pc : Deps.PoetryConfig) (a : Deps.RepoAnalysis)
    (evs : list Effects.Event) (existing : list string) :
  Deps.extract_dev_dependencies path_uri pc = (evs, Effects.Ok existing) ->
  Forall (fun m => has_char " " m = false /\ has_char "[" m = false) (Deps.missing_stubs a) ->
  exists r,
    Deps.build_dev_dependencies path_uri pc a = (evs, Effects.Ok r) /\
    Permutation r
      (existing
       ++ map DepFacts.stub_decl
            (filter (fun m => negb (Deps.name_in (map Deps.extract_dep_name existing)
                                                 ("types-" ++ m)))
               (Deps.missing_stubs a))
       ++ map snd
            (filter (fun t => negb (Deps.name_in (map Deps.extract_dep_name existing) (fst t)))
               standard_tools))%list /\
    Sorted (fun x y => String.leb x y = true) r.
Proof.
  intros Hex Hst. unfold Deps.build_dev_dependencies. rewrite Hex.
  cbn [Effects.bind Effects.ret].
  eexists. split; [rewrite app_nil_r; reflexivity|]. split.
  2: apply StrSort.Sorted_sort.
  symmetry. eapply Permutation_trans; [|apply StrSort.Permuted_sort].
  unfold Deps.get_existing_dep_names.
  set (names := map Deps.extract_dep_name existing).
  apply Permutation_app_head. apply Permutation_app.
  - unfold Deps.get_new_stubs, Deps.filter_new_deps, Deps.build_type_stub_deps.
    change (fun pkg => "types-" ++ pkg ++ " >=2.0.0, <3.0") with DepFacts.stub_decl.
    rewrite DepFacts.filter_map_comm.
    apply Permutation_refl'. f_equal. apply filter_ext_in.
    intros m Hm. rewrite Forall_forall in Hst. destruct (Hst m Hm) as [Hsp Hbr].
    rewrite DepFacts.extract_dep_name_stub by assumption. reflexivity.
  - unfold Deps.get_new_tools, Deps.filter_new_deps, Deps.build_standard_tool_deps,
      standard_tools.
    cbn [filter map snd fst].
    replace (Deps.extract_dep_name "pytest >=8.0.0, <9.0") with "pytest" by reflexivity.
    replace (Deps.extract_dep_name "ruff >=0.1.3, <0.2.0") with "ruff" by reflexivity.
    replace (Deps.extract_dep_name "mypy >=1.6.1, <2.0.0") with "mypy" by reflexivity.
    replace (Deps.extract_dep_name "deptry >=0.14.2, <0.15.0") with "deptry" by reflexivity.
    destruct (Deps.name_in names "pytest"), (Deps.name_in names "ruff"),
      (Deps.name_in names "mypy"), (Deps.name_in names "deptry"); reflexivity.
Qed.

(** The witness of C8: [example_poetry_config] and [example_analysis]. *)
Lemma build_dev_dependencies_assembly_witness :
  Deps.extract_dev_dependencies (fun p => p) example_poetry_config
    = ([], Effects.Ok ["pytest >=7.0, <8.0"; "black[d] >=23.1.0, <24.0"]) /\
  exists r,
    Deps.build_dev_dependencies (fun p => p) example_poetry_config example_analysis
      = ([], Effects.Ok r) /\
    Permutation r
      (["pytest >=7.0, <8.0"; "black[d] >=23.1.0, <24.0"]
       ++ map DepFacts.stub_decl
            (filter (fun m => negb (Deps.name_in
                                      (map Deps.extract_dep_name
                                         ["pytest >=7.0, <8.0"; "black[d] >=23.1.0, <24.0"])
                                      ("types-" ++ m)))
               (Deps.missing_stubs example_analysis))
       ++ map snd
            (filter (fun t => negb (Deps.name_in
                                      (map Deps.extract_dep_name
                                         ["pytest >=7.0, <8.0"; "black[d] >=23.1.0, <24.0"])
                                      (fst t)))
               standard_tools))%list /\
    Sorted (fun x y => String.leb x y = true) r.
Proof.
  split; [reflexivity|].
  apply (build_dev_dependencies_assembly (fun p => p) example_poetry_config example_analysis
           [] ["pytest >=7.0, <8.0"; "black[d] >=23.1.0, <24.0"]).
  - reflexivity.
  - repeat constructor.
Defined.

(** *** C9 *)

(** C9 (code bug): an existing repository already in the target format
    ([project] and [dependency-groups], no [tool.poetry]) does not always
    exit 0: the analysis runs first, and when it raises with message [e]
    the run prints "Analysis failed: " and [e] and exits 1, before the
    already-migrated check.  The analysis does raise on ordinary
    repositories: [has_type_annotations] passes over files that cannot be
    read ([OSError]) or parsed, and on the first other file it raises
    [UnicodeDecodeError] (a file that is not valid UTF-8, which
    [read_file_as_syntax_tree] does not catch) or [NameError] (a parseable
    file: [is_annotation_node] is not defined). *)
Theorem already_migrated_analysis_failure_exits_1 (env : Driver.Env) (e : string)
    {Node : Type} (parse : string -> option Node) (descendants : Node -> list Node)
    (pre : list FileAnalysis.read_text_result) (f : FileAnalysis.read_text_result)
    (post : list FileAnalysis.read_text_result) :
  Driver.repo_exists env = true ->
  Driver.doc_has_poetry env = false ->
  Driver.doc_has_project env = true ->
  Driver.doc_has_dependency_groups env = true ->
  Driver.analyze_repo_result env = inr e ->
  Forall (fun g => FileAnalysis.skipped parse g = true) pre ->
  FileAnalysis.skipped parse f = false ->
  (Driver.is_already_migrated env = true /\
   Driver.migrate_repo env
     = ([Effects.EPrint ("Migrating " ++ Driver.repo env);
         Effects.EPrint ("Analysis failed: " ++ e)], Effects.Ok Driver.FAILURE)) /\
  FileAnalysis.has_type_annotations parse descendants (pre ++ f :: post)%list =
    inl (match f with
         | FileAnalysis.ReadUnicodeDecodeError => FileAnalysis.UnicodeDecodeError
         | _ => FileAnalysis.NameError "is_annotation_node"
         end).
Proof.
  intros Hex Hpo Hpr Hdg Ha Hpre Hf. split.
  - split.
    + unfold Driver.is_already_migrated. rewrite Hpo, Hpr, Hdg. reflexivity.
    + unfold Driver.migrate_repo, Driver.check_repo_exists. rewrite Hex.
      unfold Driver.perform_analysis. rewrite Ha. reflexivity.
  - apply FileAnalysisFacts.has_type_annotations_scan; assumption.
Qed.

(** The witness of C9: an already-migrated repository holding one
    parseable source file, whose analysis raises [NameError]. *)
Lemma already_migrated_analysis_failure_exits_1_witness :
  (Driver.is_already_migrated (example_env_migrated (inr name_error)) = true /\
   Driver.migrate_repo (example_env_migrated (inr name_error))
     = ([Effects.EPrint "Migrating /home/jon/Work/demo";
         Effects.EPrint ("Analysis failed: " ++ name_error)], Effects.Ok Driver.FAILURE)) /\
  FileAnalysis.has_type_annotations (fun _ => Some tt) (fun _ => [])
    [FileAnalysis.Text "x: int = 1"]
    = inl (FileAnalysis.NameError "is_annotation_node").
Proof.
  apply (already_migrated_analysis_failure_exits_1
           (example_env_migrated (inr name_error)) name_error
           (fun _ => Some tt) (fun _ => []) [] (FileAnalysis.Text "x: int = 1") []);
    try reflexivity.
  constructor.
Defined.

(** X21: a run of an existing repository whose [pyproject.toml] has a
    [project] table and [dependency-groups] and no [tool.poetry] performs
    no event other than printing (no file written or removed, no command
    run, no tracking-manifest write); it exits 0 when the analysis
    succeeded and 1 when the analysis raised. *)
Theorem already_migrated_run_no_mutation (env : Driver.Env) :
  Driver.repo_exists env = true ->
  Driver.doc_has_poetry env = false ->
  Driver.doc_has_project env = true ->
  Driver.doc_has_dependency_groups env = true ->
  exists out,
    Driver.migrate_repo env
      = (out, Effects.Ok (match Driver.analyze_repo_result env with
                          | inl _ => Driver.SUCCESS
                          | inr _ => Driver.FAILURE
                          end)) /\
    Forall (fun ev => Driver.is_mutation ev = false) out.
Proof.
  intros Hex Hpo Hpr Hdg.
  unfold Driver.migrate_repo, Driver.check_repo_exists. rewrite Hex.
  unfold Driver.perform_analysis.
  destruct (Driver.analyze_repo_result env) as [a|e].
  - unfold Driver.handle_analysis_and_checks, Driver.check_already_migrated,
      Driver.is_already_migrated.
    rewrite Hpo, Hpr, Hdg. cbn.
    eexists; split; [reflexivity | repeat constructor].
  - cbn. eexists; split; [reflexivity | repeat constructor].
Qed.

Lemma already_migrated_run_no_mutation_witness :
  exists out,
    Driver.migrate_repo (example_env_migrated (inl example_analysis))
      = (out, Effects.Ok Driver.SUCCESS) /\
    Forall (fun ev => Driver.is_mutation ev = false) out.
Proof.
  apply (already_migrated_run_no_mutation (example_env_migrated (inl example_analysis)));
    reflexivity.
Defined.

(** *** C10 *)

(** C10 (amended): for a legacy repository whose analysis and migration
    succeed and whose check commands all exit 0, the exit status of
    [git add] and [git commit] (any, as long as they can be started) does
    not matter.  When the tracking manifest loads and the repository lies
    under ~/Work, the run exits 0; it writes the manifest with the entry
    set to "migrated" if the manifest has an entry for the repository, and
    writes no manifest otherwise.  When the manifest does not load, or the
    repository is not under ~/Work, an exception escapes the run. *)
Theorem commit_result_ignored (env : Driver.Env) (a : Deps.RepoAnalysis)
    (evs : list Effects.Event) (ok_add ok_commit : bool) :
  Driver.repo_exists env = true ->
  Driver.analyze_repo_result env = inl a ->
  Driver.is_already_migrated env = false ->
  Driver.perform_migration env a = (evs, Effects.Ok true) ->
  (forall cmd, In cmd (Driver.build_check_commands (Driver.python_files env)) ->
     Driver.cmd_result env cmd = Some true) ->
  Driver.cmd_result env Driver.git_add_cmd = Some ok_add ->
  Driver.cmd_result env (Driver.git_commit_cmd a) = Some ok_commit ->
  (forall repos rp,
     Driver.manifest env = Some repos -> Driver.rel_path env = Some rp ->
     exists out,
       Driver.migrate_repo env = (out, Effects.Ok Driver.SUCCESS) /\
       match Driver.find_repo_in_manifest repos rp with
       | Some _ =>
           In (Effects.ESaveTracking
                 (Driver.update_first repos rp
                    (fun r => Driver.update_repo_entry r "migrated"
                                (Driver.build_commit_notes a) (Driver.today env)))) out
       | None => Forall DriverFacts.not_tracking out
       end) /\
  (Driver.manifest env = None -> snd (Driver.migrate_repo env) = Effects.Raise Effects.OSError) /\
  (forall repos, Driver.manifest env = Some repos -> Driver.rel_path env = None ->
     snd (Driver.migrate_repo env) = Effects.Raise Effects.ValueError).
Proof.
  intros Hex Han Ham Hpm Hck Hadd Hcom.
  destruct (DriverFacts.legacy_run_shape env a evs ok_add ok_commit Hex Han Ham Hpm Hck Hadd Hcom)
    as [pre [Hpre Hrun]].
  split; [|split].
  - intros repos rp Hm Hr.
    destruct (Driver.find_repo_in_manifest repos rp) as [e|] eqn:Hf.
    + eexists; split.
      * apply (Hrun [Effects.ESaveTracking
                       (Driver.update_first repos rp
                          (fun r => Driver.update_repo_entry r "migrated"
                                      (Driver.build_commit_notes a) (Driver.today env)))]
                    (Effects.Ok tt)).
        unfold Driver.update_manifest. rewrite Hm, Hr, Hf. reflexivity.
      * apply in_or_app. right. left. reflexivity.
    + eexists; split.
      * apply (Hrun [] (Effects.Ok tt)).
        unfold Driver.update_manifest. rewrite Hm, Hr, Hf. reflexivity.
      * apply Forall_app. split; [exact Hpre|]. repeat constructor.
  - intros Hm. rewrite (Hrun [] (Effects.Raise Effects.OSError)); [reflexivity|].
    unfold Driver.update_manifest. rewrite Hm. reflexivity.
  - intros repos Hm Hr. rewrite (Hrun [] (Effects.Raise Effects.ValueError)); [reflexivity|].
    unfold Driver.update_manifest. rewrite Hm, Hr. reflexivity.
Qed.

Lemma commit_result_ignored_witness :
  exists out,
    Driver.migrate_repo (example_env_legacy true) = (out, Effects.Ok Driver.SUCCESS) /\
    In (Effects.ESaveTracking
          [{| Effects.te_path := "demo"; Effects.te_status := "migrated";
              Effects.te_last_updated := "2024-01-15";
              Effects.te_notes := "added type stubs: requests, yaml" |}]) out.
Proof.
  destruct (commit_result_ignored (example_env_legacy true) example_analysis
              (fst (Driver.perform_migration (example_env_legacy true) example_analysis))
              false false)
    as [H _].
  - reflexivity.
  - reflexivity.
  - reflexivity.
  - reflexivity.
  - intros cmd Hin. cbn in Hin.
    repeat (destruct Hin as [<-|Hin]; [reflexivity|]). contradiction.
  - reflexivity.
  - reflexivity.
  - destruct (H _ "demo" eq_refl eq_refl) as [out [Hrun Hin]].
    exists out. split; [exact Hrun | exact Hin].
Defined.

(** C10 counterexample: a legacy repository whose checks pass, whose
    [git add] and [git commit] both exit non-zero, and which has no entry in
    the tracking manifest: the run exits 0 and writes no tracking manifest. *)
Lemma commit_failure_untracked_no_update :
  Driver.cmd_result (example_env_legacy false) Driver.git_add_cmd = Some false /\
  Driver.cmd_result (example_env_legacy false) (Driver.git_commit_cmd example_analysis)
    = Some false /\
  snd (Driver.migrate_repo (example_env_legacy false)) = Effects.Ok Driver.SUCCESS /\
  forallb (fun ev => match ev with Effects.ESaveTracking _ => false | _ => true end)
    (fst (Driver.migrate_repo (example_env_legacy false))) = true.
Proof. repeat split; vm_compute; reflexivity. Qed.

End Claims.

(* ================================================================== *)
(** ** Further properties of the code *)
(* ================================================================== *)

Module Extras1.
Import PyStr Effects Deps Driver ExtraFacts RunFacts Examples.

(** X1: [find_duplicate_dependencies] reports a name exactly when it is the
    name of at least two of the project and dev dependency strings. *)
Theorem find_duplicate_dependencies_spec (project_deps dev_deps : list string) (n : string) :
  In n (Analysis.find_duplicate_dependencies project_deps dev_deps) <->
  (2 <= count_occ String.string_dec (map extract_dep_name (project_deps ++ dev_deps)) n)%nat.
Proof.
  unfold Analysis.find_duplicate_dependencies, Analysis.find_duplicates_in_sequence.
  rewrite find_duplicates_from_spec. cbn [name_in existsb]. rewrite Nat.add_0_r. reflexivity.
Qed.

(** X2: [merge_env] returns [os.environ] unchanged for [None] or an empty
    dictionary; for a non-empty one, [VIRTUAL_ENV] is absent from the result
    and every other key takes its value from [env] first, then from
    [os.environ]. *)
Theorem merge_env_lookup (environ env : list (string * string)) (k : string) :
  NoDup (map fst env) ->
  Subprocess.merge_env environ None = environ /\
  PyDict.get (Subprocess.merge_env environ (Some env)) k =
    match env with
    | [] => PyDict.get environ k
    | _ :: _ =>
        if String.eqb k "VIRTUAL_ENV" then None
        else match PyDict.get env k with Some v => Some v | None => PyDict.get environ k end
    end.
Proof.
  intros Hnd. split; [reflexivity|].
  destruct env as [|kv env]; [reflexivity|].
  unfold Subprocess.merge_env. rewrite get_pop.
  destruct (String.eqb k "VIRTUAL_ENV"); [reflexivity|].
  rewrite get_union, get_rev by exact Hnd. reflexivity.
Qed.

Lemma merge_env_lookup_witness :
  NoDup (map fst [("UV_CACHE_DIR", "/c")]) /\
  PyDict.get (Subprocess.merge_env [("VIRTUAL_ENV", "/v"); ("HOME", "/h")]
                (Some [("UV_CACHE_DIR", "/c")])) "VIRTUAL_ENV" = None.
Proof.
  assert (Hnd : NoDup (map fst [("UV_CACHE_DIR", "/c")])) by (repeat constructor; intros []).
  split; [exact Hnd|].
  destruct (merge_env_lookup [("VIRTUAL_ENV", "/v"); ("HOME", "/h")] [("UV_CACHE_DIR", "/c")]
              "VIRTUAL_ENV" Hnd) as [_ H].
  rewrite H. reflexivity.
Defined.

(** X3: when the analysis' Python versions come from
    [extract_python_versions], [extract_python_version] never raises
    [IndexError] (the split of [requires-python] is never empty) and emits
    nothing; without [requires-python] it returns ["3.12"]. *)
Theorem extract_python_version_of_requires_python (a : RepoAnalysis)
    (requires_python : option string) :
  python_versions a = Analysis.extract_python_versions requires_python ->
  (exists res, extract_python_version a = ([], res) /\ res <> Raise IndexError) /\
  (requires_python = None -> extract_python_version a = ([], Ok "3.12")).
Proof.
  intros Hv. unfold extract_python_version. rewrite Hv. split.
  - unfold Analysis.extract_python_versions.
    destruct (split_char_cons "," (match requires_python with Some r => r | None => ">=3.12,<4.0" end))
      as [h [t ->]].
    cbn [map].
    destruct (split_char "." (strip (replace ">=" "" (strip h)))) as [|x [|y zs]];
      eexists; split; try reflexivity; discriminate.
  - intros ->. reflexivity.
Qed.

Lemma extract_python_version_of_requires_python_witness :
  extract_python_version Examples.plain_analysis = ([], Ok "3.12").
Proof.
  destruct (extract_python_version_of_requires_python Examples.plain_analysis None eq_refl)
    as [_ H].
  exact (H eq_refl).
Defined.

(** X4: [update_manifest] writes nothing when the manifest has no entry with
    the repository's path; otherwise it writes the manifest with only the
    first such entry replaced (same path, the new status and notes, today's
    date), and looking the path up in what it writes gives that entry. *)
Theorem update_manifest_updates_first_entry (env : Env) (status notes : string)
    (repos : list TrackEntry) (rp : string) :
  manifest env = Some repos -> rel_path env = Some rp ->
  (find_repo_in_manifest repos rp = None -> update_manifest env status notes = ([], Ok tt)) /\
  (forall e, find_repo_in_manifest repos rp = Some e ->
     exists l1 l2,
       repos = (l1 ++ e :: l2)%list /\
       update_manifest env status notes =
         ([ESaveTracking (l1 ++ update_repo_entry e status notes (today env) :: l2)%list], Ok tt) /\
       find_repo_in_manifest (l1 ++ update_repo_entry e status notes (today env) :: l2)%list rp =
         Some (update_repo_entry e status notes (today env))).
Proof.
  intros Hm Hr. unfold update_manifest. rewrite Hm, Hr.
  destruct (update_first_spec repos rp (fun r => update_repo_entry r status notes (today env)))
    as [_ H2].
  split.
  - intros Hf. rewrite Hf. reflexivity.
  - intros e Hf. destruct (H2 e Hf) as [l1 [l2 [Hrepos [Hl1 [Hpe Hu]]]]].
    exists l1, l2. split; [exact Hrepos|]. split.
    + rewrite Hf, Hu. reflexivity.
    + rewrite find_repo_app by exact Hl1. unfold find_repo_in_manifest. cbn [find].
      cbn [te_path update_repo_entry]. rewrite Hpe, String.eqb_refl. reflexivity.
Qed.

Lemma update_manifest_updates_first_entry_witness :
  update_manifest (demo_env true []) "migrated" "ok" =
    ([ESaveTracking [update_repo_entry demo_entry "migrated" "ok" "2026-10-19"]], Ok tt).
Proof.
  destruct (update_manifest_updates_first_entry (demo_env true []) "migrated" "ok"
              [demo_entry] "demo" eq_refl eq_refl) as [_ H].
  destruct (H demo_entry eq_refl) as [l1 [l2 [Hl [Hu _]]]].
  rewrite Hu. destruct l1 as [|x l1]; [|destruct l1; discriminate].
  injection Hl as Hl2. subst l2. reflexivity.
Defined.

(** X5: [execute_check_commands] starts the commands in order and stops at
    the first one that does not exit 0: it returns its error message, or
    lets the [OSError] escape when it could not be started; the later
    commands are never run. *)
Theorem execute_check_commands_stops_at_first_failure (env : Env)
    (pre : list (list string)) (c : list string) (post : list (list string)) :
  (forall x, In x pre -> cmd_result env x = Some true) ->
  cmd_result env c <> Some true ->
  execute_check_commands env (pre ++ c :: post)%list =
    (map ERun (pre ++ [c])%list,
     match cmd_result env c with
     | None => Raise OSError
     | Some _ => Ok (false, "Error running " ++ join " " c ++ ":" ++ nl ++ cmd_stderr env c)
     end).
Proof. exact (execute_check_commands_failure env pre c post). Qed.

Lemma execute_check_commands_stops_at_first_failure_witness :
  snd (execute_check_commands (demo_env true ["b"]) [["a"]; ["b"]; ["c"]]) =
    Ok (false, "Error running b:" ++ nl ++ "failed").
Proof.
  change [["a"]; ["b"]; ["c"]] with ([["a"]] ++ ["b"] :: [["c"]])%list.
  rewrite (execute_check_commands_stops_at_first_failure (demo_env true ["b"]) [["a"]] ["b"] [["c"]]).
  - reflexivity.
  - intros x [<-|[]]. reflexivity.
  - discriminate.
Defined.

End Extras1.

Module Extras2.
Import PyStr Effects Deps Driver DriverFacts RunFacts Examples.



(** X7: a repository without a Poetry table that is not already migrated
    is not converted: the run prints the analysis and "No Poetry
    configuration found" and exits with status 1, without writing a file
    or starting a command. *)
Theorem no_poetry_run_exits_1 (env : Env) (a : RepoAnalysis) :
  repo_exists env = true ->
  analyze_repo_result env = inl a ->
  doc_has_poetry env = false ->
  is_already_migrated env = false ->
  migrate_repo env =
    ((EPrint ("Migrating " ++ repo env) :: fst (print_analysis_results a) ++
      [EPrint "No Poetry configuration found"])%list, Ok FAILURE).
Proof.
  intros Hex Han Hp Ham.
  unfold migrate_repo, check_repo_exists. rewrite Hex.
  unfold perform_analysis. rewrite Han.
  unfold handle_analysis_and_checks, check_already_migrated, run_migration_and_checks.
  run_step. rewrite Ham. run_step.
  unfold perform_migration, convert_pyproject. rewrite Hp. run_step.
  rewrite ?app_nil_l, ?app_nil_r, <- ?app_assoc. reflexivity.
Qed.

Lemma no_poetry_run_exits_1_witness :
  snd (migrate_repo (demo_env false [])) = Ok FAILURE.
Proof.
  rewrite (no_poetry_run_exits_1 (demo_env false []) plain_analysis); reflexivity.
Defined.

(** X8: the commit message and tracking note fall back to "converted with
    standard configuration" exactly when the analysis found no module
    conflict, no missing stub, no async code and no type annotations. *)
Theorem build_commit_notes_default_iff (a : RepoAnalysis) :
  build_commit_notes a = "converted with standard configuration" <->
  module_conflicts a = [] /\ missing_stubs a = [] /\
  has_async a = false /\ has_type_annotations a = false.
Proof.
  unfold build_commit_notes, collect_commit_notes.
  destruct (module_conflicts a), (missing_stubs a), (has_async a), (has_type_annotations a);
    cbn; split; intros H;
    repeat match goal with H : _ /\ _ |- _ => destruct H end;
    try discriminate; auto.
Qed.

(** X9: whenever the generated ruff table excludes a directory, the
    generated mypy table excludes ["before/.*"]. *)
Theorem ruff_exclude_implies_mypy_exclude (a : RepoAnalysis) :
  PyDict.mem (Tools.build_ruff_config a) "exclude" = true ->
  PyDict.get (Tools.build_mypy_config a) "exclude" = Some (Tools.CStrList ["before/.*"]).
Proof.
  unfold Tools.build_ruff_config, Tools.build_mypy_config, Tools.ruff_exclude_cfg,
    Tools.mypy_exclude_cfg, Tools.line_cfg.
  destruct (module_conflicts a) as [|c cs].
  - cbn [Tools.has_before_directory_conflicts existsb].
    destruct (has_long_lines a); cbn; discriminate.
  - intros _. rewrite ExtraFacts.get_union. reflexivity.
Qed.

Lemma ruff_exclude_implies_mypy_exclude_witness :
  PyDict.get (Tools.build_mypy_config
                {| duplicate_deps := []; invalid_versions := [];
                   module_conflicts := [("util", "before/util.py")];
                   missing_stubs := []; has_async := true; has_type_annotations := false;
                   has_long_lines := true; python_versions := [] |}) "exclude"
  = Some (Tools.CStrList ["before/.*"]).
Proof. apply ruff_exclude_implies_mypy_exclude. reflexivity. Defined.

(** X10: every pair [(name, version)] that [validate_version_constraints]
    reports comes from a declaration ["name version"] of the input: [name]
    is its text before the first space, [version] the non-empty rest, and
    [validate_version_constraint] rejects [version]. *)
Theorem validate_version_constraints_sound (all_deps : list string) (name version : string) :
  In (name, version) (Version.validate_version_constraints all_deps) ->
  In (name ++ " " ++ version) all_deps /\ StrFacts.has_char " " name = false /\
  version <> EmptyString /\ Version.validate_version_constraint version = None.
Proof.
  unfold Version.validate_version_constraints. rewrite filter_In, in_map_iff.
  intros [[d [Hd Hin]] Hinv]. cbn [fst snd] in Hinv.
  unfold Version.is_invalid_version in Hinv. apply andb_true_iff in Hinv as [Hne Hv].
  assert (Hne' : version <> EmptyString)
    by (intros ->; discriminate).
  unfold Version.extract_dep_version in Hd.
  destruct (split_once " " d) as [n [v|]] eqn:Hs; injection Hd as <- <-; [|contradiction].
  destruct (AnalysisFacts.split_once_some _ _ _ _ Hs) as [-> Hn].
  split; [exact Hin|]. split; [exact Hn|]. split; [exact Hne'|].
  destruct (Version.validate_version_constraint v) as [r|] eqn:Hval; [|reflexivity].
  apply String.eqb_eq in Hv. exfalso. exact (AnalysisFacts.validate_nonempty _ _ Hval Hv).
Qed.

Lemma validate_version_constraints_sound_witness :
  In ("foo", ">=abc") (Version.validate_version_constraints ["foo >=abc"; "bar ^1.2"]) /\
  In ("foo >=abc") ["foo >=abc"; "bar ^1.2"].
Proof.
  assert (H : In ("foo", ">=abc") (Version.validate_version_constraints ["foo >=abc"; "bar ^1.2"]))
    by (vm_compute; auto).
  split; [exact H|].
  exact (proj1 (validate_version_constraints_sound _ _ _ H)).
Defined.

End Extras2.

Module Extras3.
Import PyStr StrFacts Effects Deps Modules ConflictFacts FormatFacts.

(** X11: when the Python files found (outside [.venv]) are distinct paths,
    migrate_repo.py's [check_module_conflicts] reports [(stem, p)] exactly
    for the files [p] followed, later in glob order, by a file with the same
    stem. *)
Theorem check_module_conflicts_later_file (globbed : list string) (n p : string) :
  NoDup (get_python_files globbed) ->
  In (n, p) (Modules.check_module_conflicts globbed) <->
  n = path_stem p /\
  exists l1 l2, get_python_files globbed = (l1 ++ p :: l2)%list /\
                exists q, In q l2 /\ path_stem q = path_stem p.
Proof.
  intros Hnd. unfold Modules.check_module_conflicts, find_conflicts.
  rewrite in_map_iff. split.
  - intros [p' [Heq Hin]]. injection Heq as <- ->.
    apply filter_In in Hin as [Hin Hget].
    rewrite build_module_map_get in Hget.
    destruct (in_split _ _ Hin) as [l1 [l2 Hsplit]].
    split; [reflexivity|]. exists l1, l2. split; [exact Hsplit|].
    destruct (existsb (fun q => String.eqb (path_stem q) (path_stem p)) l2) eqn:Hex.
    + apply existsb_exists in Hex as [q [Hq Heq]].
      exists q. split; [exact Hq | apply String.eqb_eq; exact Heq].
    + exfalso. rewrite Hsplit in Hnd, Hget.
      rewrite (proj2 (find_rev_split (fun q => String.eqb (path_stem q) (path_stem p)) _ _ _ Hnd (String.eqb_refl _)) Hex) in Hget.
      rewrite String.eqb_refl in Hget. discriminate.
  - intros [-> [l1 [l2 [Hsplit [q [Hq Hs]]]]]].
    exists p. split; [reflexivity|]. apply filter_In. split.
    + rewrite Hsplit. apply in_or_app. right. left. reflexivity.
    + cbv beta. rewrite build_module_map_get, Hsplit. rewrite Hsplit in Hnd.
      destruct (find (fun q => String.eqb (path_stem q) (path_stem p)) (rev (l1 ++ p :: l2)))
        as [y|] eqn:Ef.
      * destruct (String.eqb_spec y p) as [->|Hne]; [|reflexivity].
        apply (find_rev_split (fun q => String.eqb (path_stem q) (path_stem p)) _ _ _ Hnd (String.eqb_refl _)) in Ef.
        assert (Htrue : existsb (fun q => String.eqb (path_stem q) (path_stem p)) l2 = true)
          by (apply existsb_exists; exists q; split; [exact Hq | apply String.eqb_eq; exact Hs]).
        congruence.
      * reflexivity.
Qed.

Lemma check_module_conflicts_later_file_witness :
  In ("util", "/repo/a/util.py")
     (Modules.check_module_conflicts ["/repo/a/util.py"; "/repo/main.py"; "/repo/b/util.py"]).
Proof.
  apply (check_module_conflicts_later_file
           ["/repo/a/util.py"; "/repo/main.py"; "/repo/b/util.py"] "util" "/repo/a/util.py").
  - repeat constructor; cbv; intuition discriminate.
  - split; [reflexivity|]. exists [], ["/repo/main.py"; "/repo/b/util.py"].
    split; [reflexivity|]. exists "/repo/b/util.py". split; [right; left; reflexivity | reflexivity].
Defined.

(** X12: migrate_repo_v2.py's [check_module_conflicts] reports [(stem, p)]
    exactly for the occurrences of files [p] (outside [.venv]) preceded,
    earlier in glob order, by a file with the same stem; the first file of
    each stem is never reported. *)
Theorem v2_check_module_conflicts_earlier_file (globbed : list string) (n p : string) :
  In (n, p) (V2Modules.check_module_conflicts globbed) <->
  n = path_stem p /\
  exists l1 l2, get_python_files globbed = (l1 ++ p :: l2)%list /\
                exists q, In q l1 /\ path_stem q = path_stem p.
Proof.
  unfold V2Modules.check_module_conflicts. rewrite v2_fold. cbn [In].
  split.
  - intros [[]|[Hn [l1 [l2 [Hf [Hq|Hq]]]]]]; [discriminate|].
    split; [exact Hn|]. exists l1, l2. split; assumption.
  - intros [Hn [l1 [l2 [Hf Hq]]]]. right. split; [exact Hn|].
    exists l1, l2. split; [exact Hf | right; exact Hq].
Qed.

(** X13: a dependency whose name has no space and no ["["] keeps its name
    through [format_dependency]: [extract_dep_name] of the formatted
    declaration is the name, whatever the constraint (version string,
    extras, path, git or url table). *)
Theorem format_dependency_keeps_name (path_uri : string -> string) (dep : string)
    (c : Constraint) (evs : list Event) (r : string) :
  has_char " " dep = false -> has_char "[" dep = false ->
  format_dependency path_uri dep c = (evs, Ok r) ->
  extract_dep_name r = dep.
Proof.
  intros Hsp Hbr Hf.
  exact (extract_dep_name_named _ _ Hsp Hbr (format_dependency_named _ _ _ _ _ Hf)).
Qed.

Lemma format_dependency_keeps_name_witness :
  extract_dep_name "black[d] >=23.1.0, <24.0" = "black".
Proof.
  apply (format_dependency_keeps_name (fun p => p) "black"
           (CTable [("version", TStr "^23.1"); ("extras", TStrList ["d"])]) []);
    reflexivity.
Defined.

(** X14: [extract_dependencies] returns the formatted runtime dependencies
    sorted, one per entry of the dependencies table other than [python]
    (when the names have no space and no ["["]), so no declaration is named
    [python]. *)
Theorem extract_dependencies_names (path_uri : string -> string)
    (str_table : list (string * TomlValue) -> string) (pc : PoetryConfig)
    (evs : list Event) (deps : list string) (python_version : string) :
  Forall (fun dc => has_char " " (fst dc) = false /\ has_char "[" (fst dc) = false)
    (pc_dependencies pc) ->
  Project.extract_dependencies path_uri str_table pc = (evs, Ok (deps, python_version)) ->
  Sorted (fun x y => String.leb x y = true) deps /\
  Permutation (map extract_dep_name deps)
    (map fst (Project.get_non_python_deps (pc_dependencies pc))) /\
  ~ In "python" (map extract_dep_name deps).
Proof.
  intros Hb H. unfold Project.extract_dependencies in H.
  destruct (normalize_version _) as [e1 [pv|ex]]; [|discriminate].
  unfold bind at 1 in H.
  destruct (mapM _ _) as [e2 [ys|ex]] eqn:Hm; [|discriminate].
  cbv [bind ret] in H. injection H as _ <- _.
  assert (Hb' : Forall (fun dc => has_char " " (fst dc) = false /\ has_char "[" (fst dc) = false)
                  (Project.get_non_python_deps (pc_dependencies pc))).
  { apply Forall_forall. intros x Hx. unfold Project.get_non_python_deps in Hx.
    apply filter_In in Hx as [Hx _]. exact (proj1 (Forall_forall _ _) Hb x Hx). }
  assert (Hperm : Permutation (map extract_dep_name (StrSort.sort ys))
                    (map fst (Project.get_non_python_deps (pc_dependencies pc)))).
  { rewrite <- (mapM_names _ _ _ _ Hb' Hm).
    apply Permutation_map. symmetry. apply StrSort.Permuted_sort. }
  split; [apply StrSort.Sorted_sort|]. split; [exact Hperm|].
  intros Hin. apply (Permutation_in _ Hperm) in Hin.
  apply in_map_iff in Hin as [[d c] [Hd Hin]]. cbn [fst] in Hd. subst d.
  unfold Project.get_non_python_deps in Hin. apply filter_In in Hin as [_ Hnp].
  discriminate.
Qed.

Lemma extract_dependencies_names_witness :
  Sorted (fun x y => String.leb x y = true) ["click >=8.0, <9.0"; "requests >=2.31.0, <3.0"].
Proof.
  apply (extract_dependencies_names (fun p => p) (fun _ => "")
           {| pc_dependencies := [("python", CStr "^3.10"); ("requests", CStr "^2.31");
                                  ("click", CStr "^8.0")];
              pc_group := [] |} [] _ ">=3.10.0, <4.0").
  - repeat constructor.
  - reflexivity.
Defined.

(** X15: in a dependency table with a [path], [git], [url] or [develop]
    key, the [version] and [extras] entries are never used; when [develop]
    is the only such key, the declaration is the bare name. *)
Theorem non_version_table_ignores_version (path_uri : string -> string) (dep : string)
    (t : list (string * TomlValue)) :
  has_non_version_keys t = true ->
  (forall k v, k = "version" \/ k = "extras" ->
     format_dependency path_uri dep (CTable ((k, v) :: t)) =
     format_dependency path_uri dep (CTable t)) /\
  (PyDict.mem t "path" = false -> PyDict.mem t "git" = false -> PyDict.mem t "url" = false ->
   format_dependency path_uri dep (CTable t) = ([], Ok dep)).
Proof.
  intros Hnv. unfold format_dependency, format_dict_dependency. split.
  - intros k v Hk.
    replace (has_non_version_keys ((k, v) :: t)) with (has_non_version_keys t)
      by (destruct Hk; subst; reflexivity).
    rewrite Hnv. destruct Hk; subst; reflexivity.
  - intros Hp Hg Hu. rewrite Hnv. unfold format_non_version_dependency.
    rewrite Hp, Hg, Hu. reflexivity.
Qed.

Lemma non_version_table_ignores_version_witness :
  format_dependency (fun p => p) "pkg"
    (CTable [("version", TStr "^1.0"); ("develop", TBool true)]) = ([], Ok "pkg").
Proof.
  destruct (non_version_table_ignores_version (fun p => p) "pkg" [("develop", TBool true)]
              eq_refl) as [H1 H2].
  rewrite (H1 "version" (TStr "^1.0") (or_introl eq_refl)).
  apply H2; reflexivity.
Defined.

End Extras3.

Module Extras4.
Import PyStr Effects Deps Driver ExtraFacts V2Facts Examples.

(** X16: migrate_repo_v2.py's [find_duplicate_dependencies] lists a name
    once for each repeated occurrence (its number of occurrences minus one),
    so it reports the same names as migrate_repo.py's, which reports each
    once. *)
Theorem v2_find_duplicate_dependencies_counts (project_deps dev_deps : list string) (n : string) :
  count_occ String.string_dec (V2Loops.find_duplicate_dependencies project_deps dev_deps) n =
    (count_occ String.string_dec (map extract_dep_name (project_deps ++ dev_deps)) n - 1)%nat /\
  (In n (V2Loops.find_duplicate_dependencies project_deps dev_deps) <->
   In n (Analysis.find_duplicate_dependencies project_deps dev_deps)).
Proof.
  assert (Hc : count_occ String.string_dec (V2Loops.find_duplicate_dependencies project_deps dev_deps) n =
    (count_occ String.string_dec (map extract_dep_name (project_deps ++ dev_deps)) n - 1)%nat).
  { unfold V2Loops.find_duplicate_dependencies. rewrite <- fold_left_app.
    rewrite find_duplicates_fold_count. reflexivity. }
  split; [exact Hc|].
  unfold Analysis.find_duplicate_dependencies, Analysis.find_duplicates_in_sequence.
  rewrite (count_occ_In String.string_dec), Hc, find_duplicates_from_spec.
  cbn [name_in existsb]. lia.
Qed.

(** X17: migrate_repo_v2.py's [configure_tools], which fills the tables key
    by key, builds the same [mypy] and [ruff] tables (same items, same
    order) as migrate_repo.py's [build_mypy_config] and [build_ruff_config]. *)
Theorem v2_configure_tools_agrees (a : RepoAnalysis) :
  V2Loops.configure_tools a = (Tools.build_mypy_config a, Tools.build_ruff_config a).
Proof.
  unfold V2Loops.configure_tools, Tools.build_mypy_config, Tools.build_ruff_config,
    Tools.async_cfg, Tools.strict_cfg, Tools.mypy_exclude_cfg, Tools.line_cfg,
    Tools.ruff_exclude_cfg, Tools.has_before_directory_conflicts.
  destruct (existsb (fun c => contains "before/" (snd c)) (module_conflicts a)).
  all: destruct (has_async a), (has_type_annotations a), (module_conflicts a), (has_long_lines a);
    reflexivity.
Qed.

(** X18: the environment migrate_repo_v2.py's [run_cmd] builds inline
    (deleting [VIRTUAL_ENV] only when present) is the one migrate_repo.py's
    [merge_env] returns. *)
Theorem v2_run_cmd_env_agrees (environ : list (string * string))
    (env : option (list (string * string))) :
  V2Loops.merged_env environ env = Subprocess.merge_env environ env.
Proof.
  destruct env as [[|kv e]|]; try reflexivity.
  unfold V2Loops.merged_env, Subprocess.merge_env.
  destruct (PyDict.mem (PyDict.union environ (kv :: e)) "VIRTUAL_ENV") eqn:Hm; [reflexivity|].
  symmetry. apply pop_absent. exact Hm.
Qed.

(** X19: migrate_repo_v2.py's [update_manifest] always writes the manifest:
    unchanged when no entry has the repository's path (where migrate_repo.py
    writes nothing), and otherwise with the first such entry updated and
    dated "2025-10-30" whatever the day. *)
Theorem v2_update_manifest_always_writes (env : Env) (status notes : string)
    (repos : list TrackEntry) (rp : string) :
  manifest env = Some repos -> rel_path env = Some rp ->
  (find_repo_in_manifest repos rp = None ->
   V2Loops.update_manifest env status notes = ([ESaveTracking repos], Ok tt) /\
   update_manifest env status notes = ([], Ok tt)) /\
  (forall e, find_repo_in_manifest repos rp = Some e ->
   exists l1 l2, repos = (l1 ++ e :: l2)%list /\
     V2Loops.update_manifest env status notes =
       ([ESaveTracking (l1 ++ update_repo_entry e status notes "2025-10-30" :: l2)%list], Ok tt)).
Proof.
  intros Hm Hr. unfold V2Loops.update_manifest, update_manifest. rewrite Hm, Hr.
  destruct (update_first_spec repos rp (fun r => update_repo_entry r status notes "2025-10-30"))
    as [H1 H2].
  split.
  - intros Hf. rewrite Hf, (H1 Hf). split; reflexivity.
  - intros e Hf. destruct (H2 e Hf) as [l1 [l2 [Hrepos [_ [_ Hu]]]]].
    exists l1, l2. split; [exact Hrepos|]. rewrite Hu. reflexivity.
Qed.

Lemma v2_update_manifest_always_writes_witness :
  V2Loops.update_manifest (demo_env true []) "migrated" "ok" =
    ([ESaveTracking [update_repo_entry demo_entry "migrated" "ok" "2025-10-30"]], Ok tt).
Proof.
  destruct (v2_update_manifest_always_writes (demo_env true []) "migrated" "ok"
              [demo_entry] "demo" eq_refl eq_refl) as [_ H].
  destruct (H demo_entry eq_refl) as [l1 [l2 [Hl Hu]]].
  rewrite Hu. destruct l1 as [|x l1]; [|destruct l1; discriminate].
  injection Hl as Hl2. subst l2. reflexivity.
Defined.

(** X20: migrate_repo_v2.py's [validate_version_constraints], which splits
    each declaration on every space and rejoins the tail, reports the same
    pairs, in the same order, as migrate_repo.py's on the project and dev
    dependencies. *)
Theorem v2_validate_version_constraints_agrees (project_deps dev_deps : list string) :
  V2Loops.validate_version_constraints project_deps dev_deps =
  Version.validate_version_constraints (project_deps ++ dev_deps).
Proof.
  unfold V2Loops.validate_version_constraints. rewrite <- fold_left_app, validate_fold.
  reflexivity.
Qed.


(** X22: [has_type_annotations] never reports [True]: it returns [False]
    exactly when every Python file is unreadable ([OSError]) or fails to
    parse, and raises otherwise. *)
Theorem has_type_annotations_never_true {Node : Type} (parse : string -> option Node)
    (descendants : Node -> list Node) (files : list FileAnalysis.read_text_result) :
  FileAnalysis.has_type_annotations parse descendants files <> inr true /\
  (FileAnalysis.has_type_annotations parse descendants files = inr false <->
   Forall (fun g => FileAnalysis.skipped parse g = true) files).
Proof.
  unfold FileAnalysis.has_type_annotations.
  induction files as [|g files IH]; cbn [FileAnalysis.any_exc].
  - split; [discriminate|split; constructor].
  - assert (Hg : forall P : Prop, FileAnalysis.skipped parse g = false ->
              Forall (fun g => FileAnalysis.skipped parse g = true) (g :: files) -> P).
    { intros P Hs H. inversion H as [|? ? Hh]. congruence. }
    unfold FileAnalysis.file_has_type_annotations.
    destruct (FileAnalysis.read_file_as_syntax_tree parse g) as [e|[t|]] eqn:E.
    + split; [discriminate|split; [discriminate|]].
      apply Hg. unfold FileAnalysis.skipped. rewrite E. reflexivity.
    + cbn. split; [discriminate|split; [discriminate|]].
      apply Hg. unfold FileAnalysis.skipped. rewrite E. reflexivity.
    + destruct IH as [IH1 IH2]. split; [exact IH1|].
      rewrite IH2. split.
      * intros H. constructor; [|exact H].
        unfold FileAnalysis.skipped. rewrite E. reflexivity.
      * intros H. inversion H. assumption.
Qed.

End Extras4.
